(** * sl-dashboard: horizon resolution, percentage change and series merging

    A shallow embedding of the frontend logic of the Sierra Leone price
    dashboard:

    - [Buyer]      the purchase planner (monthsBetween, the nearest-horizon
                   reduce of onSearch, the QuickHorizons fetch loop);
    - [Planner]    CustomerPlanner.jsx and its /series + /predict variant
                   (pctChange, chartData, enrichedData, the forecast loop);
    - [Dashboard]  ForecastDashboard.jsx (chartData, enriched, and the
                   latestReq request counter of the selection effect).

    JavaScript numbers are IEEE-754 doubles and are kept as Rocq's
    primitive floats wherever prices are computed.  The month arithmetic
    of the purchase planner only ever holds integers far below 2^53, on
    which double arithmetic is exact; there a number is an integer or NaN. *)

From Stdlib Require Import ZArith Lia.
From Stdlib Require Import Floats.PrimFloat.
From Stdlib Require Uint63.
From stdpp Require Import base option list gmap strings pretty.

(* ===================================================================== *)
(** ** JavaScript values                                                  *)
(* ===================================================================== *)

Module JS.

(** The primitive values that reach the code through JSON and through
    reads of absent properties. *)
Inductive value :=
| VUndef
| VNull
| VBool (b : bool)
| VNum (f : float)
| VStr (s : string).

(** A flat object: property name to value.  Reading a property the
    object does not have yields [undefined]. *)
Abbreviation obj := (gmap string value).

Definition get (o : obj) (k : string) : value := default VUndef (o !! k).

(** [Number.isFinite(v)]: [v] is a number, neither NaN nor infinite. *)
Definition Number_isFinite (v : value) : bool :=
  match v with
  | VNum f => PrimFloat.is_finite f
  | _ => false
  end.

(** [a ?? b] *)
Definition nullish (a b : value) : value :=
  match a with
  | VUndef | VNull => b
  | _ => a
  end.

(** [v == null], true of [null] and [undefined] only. *)
Definition is_nullish (v : value) : bool :=
  match v with
  | VUndef | VNull => true
  | _ => false
  end.

(** ToBoolean *)
Definition truthy (v : value) : bool :=
  match v with
  | VUndef | VNull => false
  | VBool b => b
  | VNum f => negb (PrimFloat.is_nan f || PrimFloat.is_zero f)
  | VStr s => negb (String.eqb s "")
  end.

(** [a || b] *)
Definition or_else (a b : value) : value := if truthy a then a else b.

(** A thrown error object: its [name] ("Error", "TypeError", ...) and
    its [message]. *)
Record error := mkError { name : string; message : string }.

(** [new Error(msg)] *)
Definition Error (msg : string) : error := mkError "Error" msg.

(** [String(e)] *)
Definition String_of_error (e : error) : string :=
  if String.eqb (message e) "" then name e
  else name e +:+ ": " +:+ message e.

(** [e.message || String(e)] *)
Definition display (e : error) : string :=
  if String.eqb (message e) "" then String_of_error e else message e.

(** Result of a computation that may throw. *)
Inductive outcome (A : Type) :=
| Return (a : A)
| Throw (e : error).
Arguments Return {A} a.
Arguments Throw {A} e.

(** [await] of a settled promise: go on with its value, or leave with
    what it rejected with. *)
#[global] Instance outcome_bind : MBind outcome := fun _ _ k c =>
  match c with
  | Return a => k a
  | Throw e => Throw e
  end.

(** Arithmetic on two values that are numbers.  Every call site guards
    its operands with [Number.isFinite], so the coercion ToNumber would
    apply to other values is never reached; NaN stands in for it. *)
Definition arith (op : float -> float -> float) (a b : value) : value :=
  match a, b with
  | VNum x, VNum y => VNum (op x y)
  | _, _ => VNum PrimFloat.nan
  end.

(** [v !== c] for a number literal [c]: strict inequality never coerces,
    and on numbers it is the IEEE comparison (so [-0 !== 0] is false). *)
Definition strict_ne_num (v : value) (c : float) : bool :=
  match v with
  | VNum f => negb (PrimFloat.eqb f c)
  | _ => true
  end.

(** The number an array length is. *)
Definition num_of_nat (n : nat) : float :=
  PrimFloat.of_uint63 (Uint63.of_Z (Z.of_nat n)).

(** What the code reads of a fetch [Response]: [ok], [status], and the
    promise of [json()], which rejects on a body that does not parse. *)
Record response (J : Type) := Response {
  ok : bool;
  status : N;
  json : outcome J;
}.
Arguments Response {J} ok status json.
Arguments ok {J} r.
Arguments status {J} r.
Arguments json {J} r.

(** The body of /series, as far as [Array.isArray(j?.points)] tells:
    the points when they are an array. *)
Record series_json := SeriesJson { points : option (list obj) }.

(** The [kpi] object of a /predict body: its own properties, and
    [future_dates] when it is an object. *)
Record kpi_json := KpiJson {
  kpi_fields : obj;
  kpi_future_dates : option obj;
}.

(** The body of /predict. *)
Record predict_json := PredictJson {
  body_current_price : value;
  body_kpi : option kpi_json;
}.

(** [pj?.kpi?.[key]] *)
Definition kpi_field (pj : predict_json) (key : string) : value :=
  match body_kpi pj with
  | Some k => get (kpi_fields k) key
  | None => VUndef
  end.

(** [pj?.kpi?.future_dates?.[key]] *)
Definition kpi_future_date (pj : predict_json) (key : string) : value :=
  match body_kpi pj with
  | Some k =>
      match kpi_future_dates k with
      | Some fd => get fd key
      | None => VUndef
      end
  | None => VUndef
  end.

(** The backend as one selection sees it: the answer to the /series
    request and to the /predict request of each horizon.  [fetch]
    rejects (Throw) when the request itself fails. *)
Record server := Server {
  series : outcome (response series_json);
  predict : Z -> outcome (response predict_json);
}.

(** [arr.slice(a, b)] for [0 <= a]. *)
Definition slice {A} (a b : nat) (l : list A) : list A :=
  take (b - a) (drop a l).

End JS.

Import JS.

(* ===================================================================== *)
(** ** The purchase planner (BuyerForecast)                               *)
(* ===================================================================== *)

Module Buyer.

(** Numbers of the month arithmetic: an integer, or NaN. *)
Inductive num := NaN | Int (z : Z).

(** What [candidates[0]] and the reduce accumulator can hold. *)
Inductive jsval := Undefined | Num (n : num).

Definition ToNumber (v : jsval) : num :=
  match v with
  | Undefined => NaN
  | Num n => n
  end.

Definition lift2 (f : Z -> Z -> Z) (a b : num) : num :=
  match a, b with
  | Int x, Int y => Int (f x y)
  | _, _ => NaN
  end.

Definition sub := lift2 Z.sub.
Definition add := lift2 Z.add.
Definition mul := lift2 Z.mul.
Definition Math_max := lift2 Z.max.

Definition Math_abs (a : num) : num :=
  match a with
  | Int x => Int (Z.abs x)
  | NaN => NaN
  end.

(** [a < b]; false as soon as one side is NaN. *)
Definition lt (a b : num) : bool :=
  match a, b with
  | Int x, Int y => (x <? y)%Z
  | _, _ => false
  end.

(** A [Date] object, seen through its local calendar fields
    ([getMonth] is 0-based).  [new Date(s)] of a string that does not
    parse is the invalid date, whose getters return NaN. *)
Inductive Date :=
| InvalidDate
| LocalDate (fullYear month date msOfDay : Z).

Definition getFullYear (d : Date) : num :=
  match d with
  | InvalidDate => NaN
  | LocalDate y _ _ _ => Int y
  end.

Definition getMonth (d : Date) : num :=
  match d with
  | InvalidDate => NaN
  | LocalDate _ m _ _ => Int m
  end.

(** The calendar fields a valid [Date] can show. *)
Definition valid_date (d : Date) : Prop :=
  match d with
  | InvalidDate => False
  | LocalDate _ m dd ms =>
      (0 <= m <= 11)%Z /\ (1 <= dd <= 31)%Z /\ (0 <= ms < 86400000)%Z
  end.

(** Chronological order of two dates: lexicographic on the fields. *)
Definition date_le (a b : Date) : Prop :=
  match a, b with
  | LocalDate y1 m1 d1 t1, LocalDate y2 m2 d2 t2 =>
      (y1 < y2 \/
       (y1 = y2 /\ (m1 < m2 \/
       (m1 = m2 /\ (d1 < d2 \/
       (d1 = d2 /\ t1 <= t2))))))%Z
  | _, _ => False
  end.

(** monthsBetween(d1, d2), with [a = new Date(d1)], [b = new Date(d2)]. *)
Definition monthsBetween (a b : Date) : num :=
  Math_max (Int 0)
    (add (mul (sub (getFullYear b) (getFullYear a)) (Int 12))
         (sub (getMonth b) (getMonth a))).

(** The callback of the reduce in onSearch. *)
Definition closer (m : num) (best : jsval) (h : Z) : jsval :=
  if lt (Math_abs (sub (Int h) m)) (Math_abs (sub (ToNumber best) m))
  then Num (Int h)
  else best.

(** [candidates[0]] *)
Definition first_candidate (candidates : list Z) : jsval :=
  match candidates !! 0%nat with
  | Some h => Num (Int h)
  | None => Undefined
  end.

(** [candidates.reduce((best, h) => ..., candidates[0])].  A reduce that
    is given an initial value returns it on an empty array. *)
Definition nearestHorizon (candidates : list Z) (m : num) : jsval :=
  foldl (closer m) (first_candidate candidates) candidates.

(** The horizon set of onSearch. *)
Definition candidates : list Z := [1; 3; 6]%Z.

(** The resolution as an expression that could throw: evaluating the
    reduce never does. *)
Definition resolveNearestHorizon (cs : list Z) (m : num) : outcome jsval :=
  Return (nearestHorizon cs m).

(** [throw new Error(`HTTP ${r.status}`)] *)
Definition http_error (st : N) : error := Error ("HTTP " +:+ pretty st).

(** [const r = await fetch(...); if (!r.ok) throw ...; await r.json()] *)
Definition fetch_json {J} (r : outcome (response J)) : outcome J :=
  resp ← r;
  if negb (ok resp) then Throw (http_error (status resp)) else json resp.

(** A row of QuickHorizons. *)
Record qrow := QRow {
  h : Z;
  target_date : value;
  predicted_price : value;
  lo : value;
  hi : value;
}.

(** The object pushed for horizon [h]. *)
Definition qrow_of (h : Z) (pj : predict_json) : qrow :=
  {| h := h;
     target_date := or_else (kpi_future_date pj (pretty h +:+ "m")) (VStr "");
     predicted_price := kpi_field pj ("pred_" +:+ pretty h +:+ "m");
     lo := VUndef;
     hi := VUndef |}.

(** [for (const h of horizons) { ... out.push(...) }], one awaited
    request after the other; the first failure leaves the loop. *)
Fixpoint predict_each (srv : server) (horizons : list Z) (out : list qrow)
  : outcome (list qrow) :=
  match horizons with
  | [] => Return out
  | h :: rest =>
      pj ← fetch_json (predict srv h);
      predict_each srv rest (out ++ [qrow_of h pj])
  end.

(** [meta.last_known] *)
Record last_known := LastKnown { lk_date : value; price_sll : value }.

(** [pts[pts.length - 1] || null], then
    [last ? { date: last.date, price_sll: last.y } : null] *)
Definition lastKnown_of (jj : series_json) : option last_known :=
  let pts := default [] (points jj) in
  match last pts with
  | Some p => Some {| lk_date := get p "date"; price_sll := get p "y" |}
  | None => None
  end.

(** The state of the QuickHorizons component. *)
Record qh_state := QhState {
  rows : list qrow;
  meta : option (option last_known);
  loading : bool;
  err : option string;
}.

(** The body of the [try] block of [go]. *)
Definition quickHorizons (srv : server)
  : outcome (option last_known * list qrow) :=
  jj ← fetch_json (series srv);
  let lastKnown := lastKnown_of jj in
  let horizons := [1; 3; 6]%Z in
  out ← predict_each srv horizons [];
  Return (lastKnown, out).

(** [go()], run to completion from state [st].  [alive] tells whether
    the effect is still mounted when the work settles. *)
Definition go (commodity : string) (srv : server) (alive : bool)
    (st : qh_state) : qh_state :=
  if String.eqb commodity "" then st
  else
    let st := {| rows := rows st; meta := meta st;
                 loading := true; err := None |} in
    match quickHorizons srv with
    | Return (lastKnown, out) =>
        if negb alive then st
        else {| rows := out; meta := Some lastKnown;
                loading := false; err := err st |}
    | Throw e =>
        if negb alive then st
        else {| rows := rows st; meta := meta st;
                loading := false; err := Some (display e) |}
    end.

(** ToNumber on the values the price arithmetic of the cards can meet.
    The conversion of a string is not modelled. *)
Definition to_number (v : value) : option float :=
  match v with
  | VUndef => Some PrimFloat.nan
  | VNull => Some 0%float
  | VBool b => Some (if b then 1%float else 0%float)
  | VNum f => Some f
  | VStr _ => None
  end.

(** The [delta] of a card of QuickHorizons:
    [(lastPrice && r.predicted_price != null)
       ? ((r.predicted_price - lastPrice) / lastPrice) * 100 : null];
    [None] when an operand is a string. *)
Definition delta (lastPrice predicted : value) : option value :=
  if truthy lastPrice && negb (is_nullish predicted) then
    match to_number predicted, to_number lastPrice with
    | Some p, Some l =>
        Some (VNum (PrimFloat.mul (PrimFloat.div (PrimFloat.sub p l) l) 100))
    | _, _ => None
    end
  else Some VNull.

End Buyer.

(* ===================================================================== *)
(** ** The purchase planner: search, history and chart series             *)
(* ===================================================================== *)

Module BuyerForecast.

(** [{ date: p.date, price: p.y }] *)
Definition history_row (p : obj) : obj :=
  <["price" := get p "y"]> (<["date" := get p "date"]> ∅).

(** The history effect, run to completion from the history shown so
    far: a failure of any kind is swallowed ([catch {}]) and leaves the
    history as it was. *)
Definition loadHistory (srv : server) (alive : bool) (history : list obj)
  : list obj :=
  match Buyer.fetch_json (series srv) with
  | Return j =>
      if negb alive then history
      else history_row <$> default [] (points j)
  | Throw _ => history
  end.

(** The [forecast] state. *)
Record forecast_state := Forecast {
  target_date : value;
  predicted_price : value;
  last_known : Buyer.last_known;
  path : list obj;
}.

(** The state of the component. *)
Record state := State {
  commodity : string;
  buyDate : string;
  current : option Buyer.last_known;
  forecast : option forecast_state;
  history : list obj;
  loading : bool;
  err : option string;
}.

(** What one call of onSearch does: nothing (the early return), or a
    search that settles, after asking the backend for at most one
    horizon, with the two objects to show or with an error. *)
Inductive search :=
| NotStarted
| Settled (requested : option Z)
          (result : outcome (Buyer.last_known * forecast_state)).

(** The horizon as the request URL carries it. *)
Definition horizon_param (v : Buyer.jsval) : option Z :=
  match v with
  | Buyer.Num (Buyer.Int h) => Some h
  | _ => None
  end.

(** The body of onSearch on the [commodity], [buyDate] and [history] its
    closure holds.  [newDate] is the [Date] constructor on what the code
    passes to it.  The reduce over [1, 3, 6] always yields one of the
    three, so the last branch is never taken. *)
Definition run_search (newDate : value -> Buyer.Date) (srv : server)
    (commodity buyDate : string) (history : list obj) : search :=
  if String.eqb commodity "" || String.eqb buyDate "" then NotStarted
  else
    let lastRow := last history in
    let lastDate :=
      match lastRow with Some p => get p "date" | None => VUndef end in
    let lastPrice :=
      match lastRow with Some p => get p "price" | None => VUndef end in
    if negb (truthy lastDate)
    then Settled None (Throw (Error "No history available yet."))
    else
      let m := Buyer.monthsBetween (newDate lastDate) (newDate (VStr buyDate)) in
      let horizon := Buyer.nearestHorizon Buyer.candidates m in
      match horizon_param horizon with
      | Some h =>
          Settled (Some h)
            (j ← Buyer.fetch_json (predict srv h);
             Return
               ({| Buyer.lk_date := lastDate; Buyer.price_sll := lastPrice |},
                {| target_date :=
                     or_else (kpi_future_date j (pretty h +:+ "m")) (VStr "");
                   predicted_price :=
                     kpi_field j ("pred_" +:+ pretty h +:+ "m");
                   last_known :=
                     {| Buyer.lk_date := lastDate;
                        Buyer.price_sll := lastPrice |};
                   path := [] |}))
      | None => Settled None (Throw (mkError "TypeError" "Failed to fetch"))
      end.

(** The state writes of a call of onSearch, on the state they reach. *)
Definition settle (st : state) (s : search) : state :=
  match s with
  | NotStarted => st
  | Settled _ (Return (c, f)) =>
      {| commodity := commodity st; buyDate := buyDate st;
         current := Some c; forecast := Some f;
         history := history st; loading := false; err := None |}
  | Settled _ (Throw e) =>
      {| commodity := commodity st; buyDate := buyDate st;
         current := None; forecast := None;
         history := history st; loading := false; err := Some (display e) |}
  end.

(** onSearch(), run to completion. *)
Definition onSearch (newDate : value -> Buyer.Date) (srv : server)
    (st : state) : state :=
  settle st (run_search newDate srv (commodity st) (buyDate st) (history st)).

(** handlePickDate(dateStr): [setBuyDate(dateStr)], then the onSearch of
    the render that built this handler, which still holds the [buyDate]
    of that render. *)
Definition handlePickDate (newDate : value -> Buyer.Date) (srv : server)
    (st : state) (dateStr : string) : state :=
  settle
    {| commodity := commodity st; buyDate := dateStr;
       current := current st; forecast := forecast st;
       history := history st; loading := loading st; err := err st |}
    (run_search newDate srv (commodity st) (buyDate st) (history st)).

(** [{ date: d.date, observed: d.price }] *)
Definition observed_row (d : obj) : obj :=
  <["observed" := get d "price"]> (<["date" := get d "date"]> ∅).

(** [{ date: p.date, forecast: p.predicted, lo: p.lo, hi: p.hi }] *)
Definition path_row (p : obj) : obj :=
  <["hi" := get p "hi"]> (<["lo" := get p "lo"]>
    (<["forecast" := get p "predicted"]> (<["date" := get p "date"]> ∅))).

(** The row of the forecast itself: its price is also its band. *)
Definition target_row (f : forecast_state) : obj :=
  <["hi" := predicted_price f]> (<["lo" := predicted_price f]>
    (<["forecast" := predicted_price f]> (<["date" := target_date f]> ∅))).

(** The [series] of the chart. *)
Definition chart_series (history : list obj) (forecast : option forecast_state)
  : list obj :=
  let obs := observed_row <$> history in
  let fc := path_row <$> match forecast with Some f => path f | None => [] end in
  obs ++ fc ++ match forecast with Some f => [target_row f] | None => [] end.

(** What a promise of the /api variant of onSearch can reject with:
    an error object, or the [Response] itself that
    [Promise.reject(r)] passes on. *)
Inductive thrown :=
| ThrownError (e : error)
| ThrownResponse (status : N).

(** [e.message || String(e)]: a [Response] has no message, and its
    string is the default one of an object. *)
Definition display_thrown (t : thrown) : string :=
  match t with
  | ThrownError e => display e
  | ThrownResponse _ => "[object Response]"
  end.

(** A settled promise. *)
Inductive settled (A : Type) :=
| Fulfilled (a : A)
| Rejected (t : thrown).
Arguments Fulfilled {A} a.
Arguments Rejected {A} t.

(** [fetch(url).then(r => (r.ok ? r.json() : Promise.reject(r)))] *)
Definition json_or_reject {J} (r : outcome (response J)) : settled J :=
  match r with
  | Throw e => Rejected (ThrownError e)
  | Return resp =>
      if ok resp then
        match json resp with
        | Return j => Fulfilled j
        | Throw e => Rejected (ThrownError e)
        end
      else Rejected (ThrownResponse (status resp))
  end.

(** [Promise.all([a, b])]: both values, or the rejection that comes
    first; [firstFails] tells whether that is [a]'s when both reject. *)
Definition Promise_all {A B} (firstFails : bool) (a : settled A)
    (b : settled B) : settled (A * B) :=
  match a, b with
  | Fulfilled x, Fulfilled y => Fulfilled (x, y)
  | Rejected t, Fulfilled _ => Rejected t
  | Fulfilled _, Rejected t => Rejected t
  | Rejected t1, Rejected t2 => Rejected (if firstFails then t1 else t2)
  end.

(** The backend of the /api variant, for one search: the answers to
    /api/current and to /api/buyer-forecast. *)
Record api := Api {
  current_request : outcome (response Buyer.last_known);
  forecast_request : outcome (response forecast_state);
}.

(** onSearch() of the /api variant, run to completion. *)
Definition onSearch_api (srv : api) (firstFails : bool) (st : state) : state :=
  if String.eqb (commodity st) "" || String.eqb (buyDate st) "" then st
  else
    match Promise_all firstFails
            (json_or_reject (current_request srv))
            (json_or_reject (forecast_request srv)) with
    | Fulfilled (c, f) =>
        {| commodity := commodity st; buyDate := buyDate st;
           current := Some c; forecast := Some f;
           history := history st; loading := false; err := None |}
    | Rejected e =>
        {| commodity := commodity st; buyDate := buyDate st;
           current := None; forecast := None;
           history := history st; loading := false;
           err := Some (display_thrown e) |}
    end.

End BuyerForecast.

(* ===================================================================== *)
(** ** The customer planner (CustomerPlanner)                             *)
(* ===================================================================== *)

Module Planner.

(** pctChange(future, base) *)
Definition pctChange (future base : value) : value :=
  if Number_isFinite future && Number_isFinite base && strict_ne_num base 0
  then arith PrimFloat.mul
         (arith PrimFloat.div (arith PrimFloat.sub future base) base)
         (VNum 100)
  else VNull.

(** [{ date: p.date, actual: p.y }] *)
Definition histRow (p : obj) : obj :=
  <["actual" := get p "y"]> (<["date" := get p "date"]> ∅).

(** [{ date: p.date, forecast: p.yhat, lo: p.lo, hi: p.hi }] *)
Definition foreRow (p : obj) : obj :=
  <["hi" := get p "hi"]> (<["lo" := get p "lo"]>
    (<["forecast" := get p "yhat"]> (<["date" := get p "date"]> ∅))).

(** chartData: history rows followed by the rows of [bundle["6"] || []]. *)
Definition chartData (hist : list obj) (bundle : gmap string (list obj))
  : list obj :=
  let f6 := default [] (bundle !! "6") in
  let histRows := histRow <$> hist in
  let foreRows := foreRow <$> f6 in
  histRows ++ foreRows.

(** The mean of the callback of movingAverage:
    [nums.length ? nums.reduce((a, b) => a + b, 0) / nums.length : null] *)
Definition mean_or_null (nums : list value) : value :=
  match length nums with
  | O => VNull
  | n => arith PrimFloat.div
           (foldl (arith PrimFloat.add) (VNum 0) nums)
           (VNum (num_of_nat n))
  end.

(** movingAverage(arr, k) *)
Definition movingAverage (arr : list value) (k : Z) : list value :=
  imap (fun i _ =>
          let slice :=
            JS.slice (Z.to_nat (Z.max 0 (Z.of_nat i - k + 1))) (i + 1) arr in
          let nums := List.filter Number_isFinite slice in
          mean_or_null nums) arr.

(** [data.map((d) => Number.isFinite(d.actual) ? Number(d.actual) : null)];
    [Number] of a number is that number. *)
Definition actuals (data : list obj) : list value :=
  (fun d => if Number_isFinite (get d "actual") then get d "actual" else VNull)
    <$> data.

(** The showMA branch: [data.forEach((d, i) => { d.ma3 = ma3[i]; })].
    Each iteration writes one property of its own row. *)
Definition add_ma3 (data : list obj) : list obj :=
  let ma3 := movingAverage (actuals data) 3 in
  imap (fun i d => <["ma3" := default VUndef (ma3 !! i)]> d) data.

(** The value stored in [data[i].mom], from the rows [data[i - 1]] and
    [data[i]] as the loop reads them. *)
Definition mom_value (p c : obj) : value :=
  let prev := nullish (get p "actual") (get p "forecast") in
  let curr := nullish (get c "actual") (get c "forecast") in
  if Number_isFinite prev && Number_isFinite curr
  then arith PrimFloat.sub curr prev
  else VNull.

(** One iteration of the changeView loop, on the array as mutated so
    far.  The loop bounds keep both reads in range; out of range the
    array is returned as it is. *)
Definition mom_iter (data : list obj) (i : nat) : list obj :=
  match data !! (i - 1)%nat, data !! i with
  | Some p, Some c => <[i := <["mom" := mom_value p c]> c]> data
  | _, _ => data
  end.

(** [for (let i = 1; i < data.length; i++) ...] *)
Definition add_mom (data : list obj) : list obj :=
  foldl mom_iter data (seq 1 (length data - 1)).

(** enrichedData.  [chartData.map((d) => ({ ...d }))] gives every row a
    fresh copy, so the writes below never reach [chartData]: rows are
    values here. *)
Definition enrichedData (chartData : list obj) (showMA changeView : bool)
  : list obj :=
  let data := (fun d : obj => d) <$> chartData in
  let data := if showMA then add_ma3 data else data in
  let data := if changeView then add_mom data else data in
  data.

(** The state the load effect writes. *)
Record load_state := LoadState {
  hist : list obj;
  bundle : gmap string (list obj);
  loading : bool;
}.

(** The forecast loop of the /series + /predict variant:
    [if (!r.ok) continue;] skips a horizon the backend refuses. *)
Fixpoint forecast_loop (srv : server) (horizons : list Z)
    (out : gmap string (list obj)) : outcome (gmap string (list obj)) :=
  match horizons with
  | [] => Return out
  | h :: rest =>
      r ← predict srv h;
      if negb (ok r) then forecast_loop srv rest out
      else
        j ← json r;
        let targetDate := kpi_future_date j (pretty h +:+ "m") in
        let pred := kpi_field j ("pred_" +:+ pretty h +:+ "m") in
        let entry : obj :=
          <["hi" := VNull]> (<["lo" := VNull]>
            (<["yhat" := pred]> (<["date" := targetDate]> ∅))) in
        forecast_loop srv rest (<[pretty h := [entry]]> out)
  end.

(** The body of the [try] block of the load effect. *)
Definition load_try (srv : server)
  : outcome (list obj * gmap string (list obj)) :=
  histResp ← series srv;
  if negb (ok histResp) then Throw (Error ("HTTP " +:+ pretty (status histResp)))
  else
    histData ← json histResp;
    let points := default [] (points histData) in
    out ← forecast_loop srv [1; 3; 6]%Z ∅;
    Return (points, out).

(** [{ "1": [], "3": [], "6": [] }] *)
Definition empty_bundle : gmap string (list obj) :=
  <["6" := []]> (<["3" := []]> (<["1" := []]> ∅)).

(** The load effect, run to completion. *)
Definition load (srv : server) : load_state :=
  match load_try srv with
  | Return (points, out) =>
      {| hist := points; bundle := out; loading := false |}
  | Throw _ =>
      {| hist := []; bundle := empty_bundle; loading := false |}
  end.

(** [hist?.length ? hist[hist.length - 1] : null], then
    [currentPoint?.y ?? null] *)
Definition currentPrice (hist : list obj) : value :=
  match last hist with
  | Some currentPoint => nullish (get currentPoint "y") VNull
  | None => VNull
  end.

(** [bundle[key]?.[0]?.yhat] of the /series + /predict variant. *)
Definition next_yhat (bundle : gmap string (list obj)) (key : string)
  : value :=
  match bundle !! key with
  | Some entries =>
      match head entries with
      | Some next => get next "yhat"
      | None => VUndef
      end
  | None => VUndef
  end.

(** [bundle[key]?.[bundle[key].length - 1]?.yhat] of CustomerPlanner.jsx. *)
Definition next_yhat_last (bundle : gmap string (list obj)) (key : string)
  : value :=
  match bundle !! key with
  | Some entries =>
      match last entries with
      | Some next => get next "yhat"
      | None => VUndef
      end
  | None => VUndef
  end.

(** The percentage of a headline card: [pc1], [pc3], [pc6]. *)
Definition headline_pct (hist : list obj) (bundle : gmap string (list obj))
    (key : string) : value :=
  pctChange (next_yhat bundle key) (currentPrice hist).

(** [Math.max(0, Math.floor(Math.max(length, 1) / 8))].  A length is an
    integer below 2^53 and the division is by a power of two, so the
    quotient is exact and its floor is the integer quotient. *)
Definition xInterval (length : nat) : Z :=
  Z.max 0 (Z.max (Z.of_nat length) 1 / 8).

(** The body of /api/history: its points, when it has them. *)
Record history_json := HistoryJson { history_points : option (list obj) }.

(** The body of /api/forecast_bundle: its forecasts, when it has them. *)
Record bundle_json := BundleJson {
  forecasts : option (gmap string (list obj));
}.

(** The backend of CustomerPlanner.jsx, for one selection. *)
Record bundle_server := BundleServer {
  history_request : outcome (response history_json);
  bundle_request : outcome (response bundle_json);
}.

(** [fetch(...).then((r) => (r.ok ? r.json() : null))] *)
Definition json_or_null {J} (r : outcome (response J)) : outcome (option J) :=
  resp ← r;
  if ok resp then j ← json resp; Return (Some j) else Return None.

(** The load effect of CustomerPlanner.jsx, run to completion:
    [Promise.all] of the two requests, [h?.points ?? []] and
    [f?.forecasts ?? { "1": [], "3": [], "6": [] }]; any rejection
    empties both. *)
Definition load_bundle (srv : bundle_server) : load_state :=
  match (h ← json_or_null (history_request srv);
         f ← json_or_null (bundle_request srv);
         Return (h, f)) with
  | Return (h, f) =>
      {| hist := match h with
                 | Some hd => default [] (history_points hd)
                 | None => []
                 end;
         bundle := match f with
                   | Some fd => default empty_bundle (forecasts fd)
                   | None => empty_bundle
                   end;
         loading := false |}
  | Throw _ => {| hist := []; bundle := empty_bundle; loading := false |}
  end.

(** The percentage of a headline card of CustomerPlanner.jsx. *)
Definition headline_pct_last (hist : list obj)
    (bundle : gmap string (list obj)) (key : string) : value :=
  pctChange (next_yhat_last bundle key) (currentPrice hist).

End Planner.

(* ===================================================================== *)
(** ** The forecast dashboard (ForecastDashboard)                         *)
(* ===================================================================== *)

Module Dashboard.

(** The [kpi] state. *)
Record kpi_state := Kpi {
  current_price : value;
  pred_1m : value;
  pred_3m : value;
  pred_6m : value;
  pct_change_1m : value;
  pct_change_3m : value;
  pct_change_6m : value;
  future_dates : obj;
}.

(** One push of futurePoints:
    [if (pred != null && kpi.future_dates?.[key]) out.push(...)] *)
Definition future_point (pred : value) (dates : obj) (key : string)
  : list obj :=
  if negb (is_nullish pred) && truthy (get dates key)
  then [<["forecast" := pred]> (<["date" := get dates key]> ∅)]
  else [].

(** futurePoints: the 1m, 3m and 6m points that are present, in that
    order. *)
Definition futurePoints (kpi : kpi_state) : list obj :=
  future_point (pred_1m kpi) (future_dates kpi) "1m" ++
  future_point (pred_3m kpi) (future_dates kpi) "3m" ++
  future_point (pred_6m kpi) (future_dates kpi) "6m".

(** [{ date: p.date, actual: p.y, forecast: null }] *)
Definition histRow (p : obj) : obj :=
  <["forecast" := VNull]>
    (<["actual" := get p "y"]> (<["date" := get p "date"]> ∅)).

(** [{ date: p.date, actual: null, forecast: p.forecast }] *)
Definition futRow (p : obj) : obj :=
  <["forecast" := get p "forecast"]>
    (<["actual" := VNull]> (<["date" := get p "date"]> ∅)).

(** chartData *)
Definition chartData (history futurePoints : list obj) : list obj :=
  let histRows := histRow <$> history in
  let futRows := futRow <$> futurePoints in
  histRows ++ futRows.

(** The showMA branch, with the average written in line. *)
Definition add_ma3 (data : list obj) : list obj :=
  let vals :=
    (fun d => if Number_isFinite (get d "actual") then get d "actual"
              else VNull) <$> data in
  let ma3 :=
    imap (fun i _ =>
            let s := List.filter Number_isFinite
                       (JS.slice (Z.to_nat (Z.max 0 (Z.of_nat i - 2)))
                                 (i + 1) vals) in
            match length s with
            | O => VNull
            | n => arith PrimFloat.div
                     (foldl (arith PrimFloat.add) (VNum 0) s)
                     (VNum (num_of_nat n))
            end) vals in
  imap (fun i d => <["ma3" := default VUndef (ma3 !! i)]> d) data.

(** One iteration of the changeView loop. *)
Definition mom_iter (data : list obj) (i : nat) : list obj :=
  match data !! (i - 1)%nat, data !! i with
  | Some p, Some c =>
      let prev := nullish (get p "actual") (get p "forecast") in
      let curr := nullish (get c "actual") (get c "forecast") in
      <[i := <["mom" := if Number_isFinite prev && Number_isFinite curr
                        then arith PrimFloat.sub curr prev
                        else VNull]> c]> data
  | _, _ => data
  end.

(** enriched *)
Definition enriched (chartData : list obj) (showMA changeView : bool)
  : list obj :=
  let data := (fun d : obj => d) <$> chartData in
  let data := if showMA then add_ma3 data else data in
  let data :=
    if changeView then foldl mom_iter data (seq 1 (length data - 1))
    else data in
  data.

(** The kpi state before anything is loaded, and after a failed
    /predict. *)
Definition null_kpi : kpi_state :=
  {| current_price := VNull;
     pred_1m := VNull; pred_3m := VNull; pred_6m := VNull;
     pct_change_1m := VNull; pct_change_3m := VNull; pct_change_6m := VNull;
     future_dates := ∅ |}.

(** The object [setKpi] is given on success, with [k = r1?.kpi || {}]. *)
Definition kpi_of (r1 : predict_json) : kpi_state :=
  {| current_price := nullish (body_current_price r1) VNull;
     pred_1m := nullish (kpi_field r1 "pred_1m") VNull;
     pred_3m := nullish (kpi_field r1 "pred_3m") VNull;
     pred_6m := nullish (kpi_field r1 "pred_6m") VNull;
     pct_change_1m := nullish (kpi_field r1 "pct_change_1m") VNull;
     pct_change_3m := nullish (kpi_field r1 "pct_change_3m") VNull;
     pct_change_6m := nullish (kpi_field r1 "pct_change_6m") VNull;
     future_dates :=
       match body_kpi r1 with
       | Some k => default ∅ (kpi_future_dates k)
       | None => ∅
       end |}.

(** Where the async function of one run of the selection effect is
    suspended. *)
Inductive phase := AwaitPredict | AwaitSeries.

(** The component between two events: the [latestReq] ref, the [kpi] and
    [history] state, and the suspended runs of the effect, each under the
    [reqId] it captured. *)
Record state := State {
  latestReq : nat;
  kpi : kpi_state;
  history : list obj;
  pending : gmap nat phase;
}.

(** What the event loop delivers: a change of selection, which runs the
    effect, or the settling of the request a run of the effect awaits.
    [getJSON] throws on a rejected fetch (an aborted one included), on a
    refused request and on a body that does not parse. *)
Inductive event :=
| Select (commodity region : string)
| PredictSettled (reqId : nat) (r1 : outcome predict_json)
| SeriesSettled (reqId : nat) (hist : outcome series_json).

Definition initial : state :=
  {| latestReq := 0; kpi := null_kpi; history := []; pending := ∅ |}.

(** One turn of the event loop.  A settle event for a run that is not
    suspended on that request cannot happen and changes nothing. *)
Definition step (s : state) (ev : event) : state :=
  match ev with
  | Select commodity region =>
      if String.eqb commodity "" || String.eqb region "" then s
      else
        let reqId := S (latestReq s) in
        {| latestReq := reqId; kpi := kpi s; history := history s;
           pending := <[reqId := AwaitPredict]> (pending s) |}
  | PredictSettled reqId r1 =>
      match pending s !! reqId with
      | Some AwaitPredict =>
          if negb (reqId =? latestReq s)%nat then
            {| latestReq := latestReq s; kpi := kpi s; history := history s;
               pending := delete reqId (pending s) |}
          else
            {| latestReq := latestReq s;
               kpi := match r1 with
                      | Return r => kpi_of r
                      | Throw _ => null_kpi
                      end;
               history := history s;
               pending := <[reqId := AwaitSeries]> (pending s) |}
      | _ => s
      end
  | SeriesSettled reqId hist =>
      match pending s !! reqId with
      | Some AwaitSeries =>
          if negb (reqId =? latestReq s)%nat then
            {| latestReq := latestReq s; kpi := kpi s; history := history s;
               pending := delete reqId (pending s) |}
          else
            {| latestReq := latestReq s;
               kpi := kpi s;
               history := match hist with
                          | Return h => default [] (points h)
                          | Throw _ => []
                          end;
               pending := delete reqId (pending s) |}
      | _ => s
      end
  end.

(** The component after a sequence of events. *)
Definition run (s : state) (evs : list event) : state := foldl step s evs.

(** [history?.[history.length - 1] ?? null], then
    [kpi.current_price != null ? kpi.current_price : current?.y ?? null] *)
Definition currentPrice (k : kpi_state) (history : list obj) : value :=
  if negb (is_nullish (current_price k)) then current_price k
  else
    match last history with
    | Some current => nullish (get current "y") VNull
    | None => VNull
    end.

(** The persisted toggles. *)
Record prefs := Prefs {
  chartType : string;
  showMA : bool;
  changeView : bool;
}.

(** The toggles a fresh component starts with. *)
Definition default_prefs : prefs :=
  {| chartType := "area"; showMA := false; changeView := false |}.

(** [localStorage]: its items, or [None] when the browser refuses
    access to it, in which case the first use throws and the [try]
    block is left with nothing done. *)
Abbreviation storage := (option (gmap string string)).

(** The first persistence effect, on the toggles held so far. *)
Definition loadPrefs (ls : storage) (p : prefs) : prefs :=
  match ls with
  | None => p
  | Some s =>
      {| chartType :=
           match s !! "chartType" with
           | Some ct => if String.eqb ct "" then chartType p else ct
           | None => chartType p
           end;
         showMA := bool_decide (s !! "showMA" = Some "1");
         changeView := bool_decide (s !! "changeView" = Some "1") |}
  end.

(** The second persistence effect. *)
Definition savePrefs (ls : storage) (p : prefs) : storage :=
  match ls with
  | None => None
  | Some s =>
      Some (<["changeView" := if changeView p then "1" else "0"]>
             (<["showMA" := if showMA p then "1" else "0"]>
               (<["chartType" := chartType p]> s)))
  end.

End Dashboard.

(* ===================================================================== *)
(** ** The model evaluation tab (ModelEval)                               *)
(* ===================================================================== *)

Module ModelEval.

(** The body of /eval as the rows builder reads it: [dates] and
    [y_test] when they are arrays, [preds] when it is an object of
    arrays. *)
Record evalset_json := EvalSet {
  dates : option (list value);
  y_test : option (list value);
  preds : option (gmap string (list value));
}.

(** A row of the table. *)
Record eval_row := EvalRow {
  date : value;
  actual : value;
  predicted : value;
  error : value;
  abs_error : value;
}.

(** [Number.isFinite(x) ? Number(x) : null] *)
Definition number_or_null (v : value) : value :=
  if Number_isFinite v then v else VNull.

(** [Math.abs(x)] of a number. *)
Definition Math_abs (v : value) : value :=
  match v with
  | VNum x => VNum (PrimFloat.abs x)
  | _ => VNum PrimFloat.nan
  end.

(** The row built for date [d] at index [i]. *)
Definition row_at (ys preds : list value) (i : nat) (d : value) : eval_row :=
  let a := number_or_null (default VUndef (ys !! i)) in
  let p := number_or_null (default VUndef (preds !! i)) in
  let both := negb (is_nullish a) && negb (is_nullish p) in
  {| date := d;
     actual := a;
     predicted := p;
     error := if both then arith PrimFloat.sub p a else VNull;
     abs_error := if both then Math_abs (arith PrimFloat.sub p a) else VNull |}.

(** The rows builder: nothing until the evaluation set and its three
    parts are there; [evalset.preds?.[model] || []] after that. *)
Definition rows (evalset : option evalset_json) (model : string)
  : list eval_row :=
  match evalset with
  | Some es =>
      match dates es, y_test es, preds es with
      | Some ds, Some ys, Some ps =>
          let preds := default [] (ps !! model) in
          imap (row_at ys preds) ds
      | _, _, _ => []
      end
  | None => []
  end.

(** The state of one use of useApi, with the runs of its effect whose
    request has not settled yet. *)
Record api_state (D : Type) := ApiState {
  data : option D;
  api_loading : bool;
  api_error : option string;
  runs : nat;
  in_flight : gset nat;
}.
Arguments ApiState {D} data api_loading api_error runs in_flight.
Arguments data {D} _.
Arguments api_loading {D} _.
Arguments api_error {D} _.
Arguments runs {D} _.
Arguments in_flight {D} _.

(** What happens to a use of useApi: its dependencies change to a new
    url, which aborts the request of the previous run and starts a new
    one; or the request of a run settles, with the body or with what
    was thrown (for an aborted request, an error named AbortError). *)
Inductive api_event (D : Type) :=
| UrlChanged
| RequestSettled (run : nat) (result : outcome D).
Arguments UrlChanged {D}.
Arguments RequestSettled {D} run result.

(** useApi starts with nothing loaded and loading on. *)
Definition api_initial {D} : api_state D :=
  {| data := None; api_loading := true; api_error := None;
     runs := 0; in_flight := ∅ |}.

(** One turn of the event loop for useApi. *)
Definition api_step {D} (s : api_state D) (ev : api_event D) : api_state D :=
  match ev with
  | UrlChanged =>
      {| data := data s; api_loading := true; api_error := None;
         runs := S (runs s); in_flight := {[ S (runs s) ]} ∪ in_flight s |}
  | RequestSettled run result =>
      if decide (run ∈ in_flight s) then
        {| data := match result with
                   | Return j => Some j
                   | Throw _ => data s
                   end;
           api_loading := false;
           api_error := match result with
                        | Return _ => api_error s
                        | Throw e =>
                            if String.eqb (name e) "AbortError"
                            then api_error s
                            else Some (display e)
                        end;
           runs := runs s;
           in_flight := in_flight s ∖ {[ run ]} |}
      else s
  end.

End ModelEval.

(* ===================================================================== *)
(** ** Vocabulary of the specification                                    *)
(* ===================================================================== *)

(** Distance of a horizon to the month count. *)
Definition dist (m h : Z) : Z := Z.abs (h - m).

(** [h], found at index [i] of [l], is the first element of [l] at
    minimal distance from [m]. *)
Definition first_min (m : Z) (l : list Z) (i : nat) (h : Z) : Prop :=
  l !! i = Some h /\
  (forall j h', l !! j = Some h' -> (dist m h <= dist m h')%Z) /\
  (forall j h', (j < i)%nat -> l !! j = Some h' -> (dist m h < dist m h')%Z).

(** What the [actuals] array holds for a raw [actual] value. *)
Definition finite_or_null (v : value) : value :=
  if Number_isFinite v then v else VNull.

(** The finite numbers among some values, in order. *)
Definition finite_floats (vs : list value) : list float :=
  omap (fun v => match v with
                 | VNum f => if PrimFloat.is_finite f then Some f else None
                 | _ => None
                 end) vs.

(** The mean of some numbers in double arithmetic: their sum, added up
    from 0 left to right, over their count. *)
Definition mean (fs : list float) : float :=
  PrimFloat.div (fold_left PrimFloat.add fs 0%float) (num_of_nat (length fs)).

(** The indices of the window of three rows that ends at [i]: fewer
    than three near the start. *)
Definition last3 (i : nat) : list nat :=
  match i with
  | O => [0%nat]
  | S O => [0%nat; 1%nat]
  | S (S j) => [j; S j; S (S j)]
  end.

(** The [actual] values of the window that ends at row [i]. *)
Definition window3 (rows : list obj) (i : nat) : list value :=
  omap (fun j => (fun d => get d "actual") <$> rows !! j) (last3 i).

(** The 3-row moving average at row [i]: the mean of the finite [actual]
    values of the window, null when it has none. *)
Definition ma3_spec (rows : list obj) (i : nat) : value :=
  match finite_floats (window3 rows i) with
  | [] => VNull
  | fs => VNum (mean fs)
  end.

(** [row.(actual ?? forecast)] *)
Definition shown (d : obj) : value := nullish (get d "actual") (get d "forecast").

(** Month-over-month change of [curr] against [prev]: the difference of
    what the two rows show, null when either is not a finite number. *)
Definition mom_spec (prev curr : obj) : value :=
  match shown curr, shown prev with
  | VNum c, VNum p =>
      if PrimFloat.is_finite c && PrimFloat.is_finite p
      then VNum (PrimFloat.sub c p)
      else VNull
  | _, _ => VNull
  end.

(** The row the changeView loop leaves at index [i], told from the rows
    [data] it started with: the first row as it was, every later row with
    its change against the row before. *)
Definition mom_row (data : list obj) (i : nat) (c : obj) : obj :=
  match i with
  | O => c
  | S j =>
      match data !! j with
      | Some p => <["mom" := mom_spec p c]> c
      | None => c
      end
  end.

(** Row [i] of the enriched series, told from the merged series
    [chart] and its row [d]. *)
Definition enriched_row (chart : list obj) (showMA changeView : bool)
    (i : nat) (d : obj) : obj :=
  let d1 := if showMA then <["ma3" := ma3_spec chart i]> d else d in
  if changeView then
    match i with
    | O => d1
    | S j =>
        match chart !! j with
        | Some p => <["mom" := mom_spec p d]> d1
        | None => d1
        end
    end
  else d1.

(** A history point [{ date, y }]. *)
Definition point (date : string) (y : value) : obj :=
  <["y" := y]> (<["date" := VStr date]> ∅).

(** The ma3 column of a series. *)
Definition ma3_column (rows : list obj) : list (option value) :=
  (fun e : obj => e !! "ma3") <$> rows.

(** A forecast point of the bundle [{ date, yhat, lo, hi }]. *)
Definition bundle_point (date : string) (yhat lo hi : value) : obj :=
  <["hi" := hi]> (<["lo" := lo]> (<["yhat" := yhat]> (<["date" := VStr date]> ∅))).

(** The scenario of the spec: three months of rice prices and the
    forecast for the month after. *)
Definition rice_history : list obj :=
  [point "2024-01" (VNum 100); point "2024-02" (VNum 105);
   point "2024-03" (VNum 98)].

Definition rice_forecast : list obj :=
  [bundle_point "2024-04" (VNum 102) VNull VNull].


(** The request of horizon [h] succeeds with body [pj]. *)
Definition request_succeeds (srv : server) (h : Z) : Prop :=
  exists pj, Buyer.fetch_json (predict srv h) = Return pj.

(** The state QuickHorizons mounts in. *)
Definition qh_initial : Buyer.qh_state :=
  {| Buyer.rows := []; Buyer.meta := None;
     Buyer.loading := false; Buyer.err := None |}.

(** A /predict body with the three forecasts. *)
Definition rice_predict_json : predict_json :=
  {| body_current_price := VNum 98;
     body_kpi := Some
       {| kpi_fields :=
            <["pred_6m" := VNum 110]> (<["pred_3m" := VNum 105]>
              (<["pred_1m" := VNum 102]> ∅));
          kpi_future_dates := Some
            (<["6m" := VStr "2024-09"]> (<["3m" := VStr "2024-06"]>
               (<["1m" := VStr "2024-04"]> ∅))) |} |}.

(** A backend that answers every request but the /predict of horizon
    [hf], which it refuses with status 500. *)
Definition refusing (hf : Z) : server :=
  {| series := Return (Response true 200
                         (Return (SeriesJson (Some rice_history))));
     predict := fun h =>
       if (h =? hf)%Z
       then Return (Response false 500 (Return rice_predict_json))
       else Return (Response true 200 (Return rice_predict_json)) |}.


(** The entry the planner's loop stores for a horizon. *)
Definition bundle_entry (date pred : value) : obj :=
  <["hi" := VNull]> (<["lo" := VNull]>
    (<["yhat" := pred]> (<["date" := date]> ∅))).

(** A row outside the two properties enrichment writes. *)
Definition input_field (k : string) : Prop := k <> "ma3" /\ k <> "mom".

(** Dates are ISO-8601 strings, whose chronological order is the
    lexicographic one. *)
Definition date_le (a b : value) : Prop :=
  match a, b with
  | VStr s, VStr t => String.leb s t = true
  | _, _ => False
  end.

(** The dates of some rows or points, in order. *)
Definition dates (rows : list obj) : list value :=
  (fun d => get d "date") <$> rows.

(** The date, actual and forecast columns of a series. *)
Definition columns (rows : list obj) : list (value * value * value) :=
  (fun d => (get d "date", get d "actual", get d "forecast")) <$> rows.

(** Every two neighbours are in order. *)
Definition non_decreasing (ds : list value) : Prop :=
  forall i a b, ds !! i = Some a -> ds !! S i = Some b -> date_le a b.

(** Every earlier date is at or before every later one. *)
Definition chronological (ds : list value) : Prop :=
  forall i j a b,
    (i < j)%nat -> ds !! i = Some a -> ds !! j = Some b -> date_le a b.



(** A price as JSON can deliver it to the cards: a finite number, null,
    or nothing. *)
Definition json_price (v : value) : Prop :=
  match v with
  | VNum f => PrimFloat.is_finite f = true
  | VNull | VUndef => True
  | _ => False
  end.

(** The change from price [a] to price [b]: their difference when both
    are finite numbers, null otherwise. *)
Definition change (a b : value) : value :=
  match b, a with
  | VNum y, VNum x =>
      if PrimFloat.is_finite y && PrimFloat.is_finite x
      then VNum (PrimFloat.sub y x)
      else VNull
  | _, _ => VNull
  end.

(** The one price line of the planner's chart: the [y] of the history
    points, then the [yhat] of the forecast points. *)
Definition planner_prices (hist fore : list obj) : list value :=
  ((fun p => get p "y") <$> hist) ++ ((fun q => get q "yhat") <$> fore).

(** The one price line of the dashboard's chart. *)
Definition dashboard_prices (history futurePoints : list obj) : list value :=
  ((fun p => get p "y") <$> history) ++
  ((fun q => get q "forecast") <$> futurePoints).

(** The number a value is, if it is one. *)
Definition number_of (v : value) : option float :=
  match v with
  | VNum f => Some f
  | _ => None
  end.

(* ===================================================================== *)
(** * Properties                                                          *)
(* ===================================================================== *)

Section NearestHorizon.
Import Buyer.

Lemma closer_int (m b h : Z) :
  closer (Int m) (Num (Int b)) h =
  Num (Int (if (dist m h <? dist m b)%Z then h else b)).
Proof.
  unfold closer, dist; simpl. by destruct (_ <? _)%Z.
Qed.

Lemma closer_nan (best : jsval) (h : Z) : closer NaN best h = best.
Proof. done. Qed.

(** The scan keeps the first minimum of what it has seen. *)
Lemma scan_first_min (m : Z) (rest seen : list Z) (i : nat) (b : Z) :
  first_min m seen i b ->
  exists i' h,
    foldl (closer (Int m)) (Num (Int b)) rest = Num (Int h) /\
    first_min m (seen ++ rest) i' h.
Proof.
  revert seen i b.
  induction rest as [|x rest IH]; intros seen i b Hmin.
  - exists i, b. by rewrite app_nil_r.
  - simpl. rewrite closer_int.
    destruct Hmin as (Hi & Hall & Hbefore).
    assert (Hlen : (i < length seen)%nat) by by eapply lookup_lt_Some.
    replace (seen ++ x :: rest) with ((seen ++ [x]) ++ rest)
      by by rewrite <- app_assoc.
    destruct (dist m x <? dist m b)%Z eqn:Hcmp.
    + apply Z.ltb_lt in Hcmp.
      apply (IH (seen ++ [x]) (length seen) x).
      split; [|split].
      * rewrite lookup_app_r by lia. by rewrite Nat.sub_diag.
      * intros j h' Hj.
        destruct (decide (j < length seen)%nat) as [Hlt|Hge].
        -- rewrite lookup_app_l in Hj by done.
           specialize (Hall j h' Hj). lia.
        -- rewrite lookup_app_r in Hj by lia.
           apply list_lookup_singleton_Some in Hj as [_ <-]. lia.
      * intros j h' Hlt Hj.
        rewrite lookup_app_l in Hj by done.
        specialize (Hall j h' Hj). lia.
    + apply Z.ltb_ge in Hcmp.
      apply (IH (seen ++ [x]) i b).
      split; [|split].
      * by rewrite lookup_app_l.
      * intros j h' Hj.
        destruct (decide (j < length seen)%nat) as [Hlt|Hge].
        -- rewrite lookup_app_l in Hj by done. eauto.
        -- rewrite lookup_app_r in Hj by lia.
           apply list_lookup_singleton_Some in Hj as [_ <-]. lia.
      * intros j h' Hlt Hj.
        rewrite lookup_app_l in Hj by lia. eauto.
Qed.

(** On a non-empty set and an integer month count the reduce returns
    the first horizon at minimal distance. *)
Lemma nearestHorizon_first_min (c : Z) (cs : list Z) (m : Z) :
  exists i h,
    nearestHorizon (c :: cs) (Int m) = Num (Int h) /\
    first_min m (c :: cs) i h.
Proof.
  unfold nearestHorizon, first_candidate. simpl.
  rewrite closer_int, Z.ltb_irrefl.
  apply (scan_first_min m cs [c] 0 c).
  split; [done|split].
  - intros [|j] h' Hj; simpl in Hj; [|done].
    injection Hj as <-. lia.
  - intros j h' Hj. lia.
Qed.

(** Whatever the month count (NaN included), the scan returns its
    starting value or one of the scanned horizons. *)
Lemma scan_member (m : num) (rest : list Z) (b : Z) :
  exists h, foldl (closer m) (Num (Int b)) rest = Num (Int h) /\
            (h = b \/ h ∈ rest).
Proof.
  revert b. induction rest as [|x rest IH]; intros b; simpl.
  - exists b. auto.
  - unfold closer at 2.
    destruct (lt _ _).
    + destruct (IH x) as (h & Hfold & [Heq|Hin]); exists h; split; auto;
        right; set_solver.
    + destruct (IH b) as (h & Hfold & [Heq|Hin]); exists h; split; auto;
        right; set_solver.
Qed.

Lemma nearestHorizon_member (cs : list Z) (m : num) :
  cs <> [] ->
  exists h, h ∈ cs /\ nearestHorizon cs m = Num (Int h).
Proof.
  destruct cs as [|c cs]; [done|]. intros _.
  unfold nearestHorizon, first_candidate. simpl lookup. cbv iota beta.
  destruct (scan_member m (c :: cs) c) as (h & Hfold & [Heq|Hin]);
    exists h; split; auto; set_solver.
Qed.

End NearestHorizon.

Section HorizonClaims.
Import Buyer.

(** C1: for every non-negative integer month distance [m], the reduce of
    onSearch over the horizon set [1, 3, 6] returns the horizon [h] of the
    set that minimises [|h - m|]; horizons at the same distance are
    settled for the first one scanned, which is the smallest; and for
    [m = 2] the result is 1. *)
Theorem C1_nearest_horizon_minimises (m : Z) :
  (0 <= m)%Z ->
  (exists h,
     nearestHorizon candidates (Int m) = Num (Int h) /\
     h ∈ candidates /\
     (forall h', h' ∈ candidates -> (Z.abs (h - m) <= Z.abs (h' - m))%Z) /\
     (forall h', h' ∈ candidates ->
                 Z.abs (h' - m) = Z.abs (h - m) -> (h <= h')%Z)) /\
  nearestHorizon candidates (Int 2) = Num (Int 1).
Proof.
  intros _. split; [|reflexivity].
  destruct (nearestHorizon_first_min 1 [3; 6]%Z m)
    as (i & h & Hres & Hi & Hall & Hbefore).
  exists h. fold candidates in Hres. split; [done|].
  assert (Hmem : forall h', h' ∈ candidates ->
                   exists j, [1; 3; 6]%Z !! j = Some h').
  { intros h' Hin. by apply list_elem_of_lookup in Hin. }
  split; [|split].
  - apply list_elem_of_lookup. by exists i.
  - intros h' Hin. destruct (Hmem h' Hin) as [j Hj].
    exact (Hall j h' Hj).
  - intros h' Hin Heq. destruct (Hmem h' Hin) as [j Hj].
    destruct (decide (j < i)%nat) as [Hlt|Hge].
    + specialize (Hbefore j h' Hlt Hj). unfold dist in Hbefore. lia.
    + assert (Hij : (i <= j)%nat) by lia. clear Hge Hall Hbefore Hmem Hin.
      destruct i as [|[|[|i]]]; destruct j as [|[|[|j]]];
        simpl in Hi, Hj; simplify_eq; lia.
Qed.

(** C1 at the month count the spec singles out. *)
Lemma C1_witness_two_months :
  (exists h,
     nearestHorizon candidates (Int 2) = Num (Int h) /\
     h ∈ candidates /\
     (forall h', h' ∈ candidates -> (Z.abs (h - 2) <= Z.abs (h' - 2))%Z) /\
     (forall h', h' ∈ candidates ->
                 Z.abs (h' - 2) = Z.abs (h - 2) -> (h <= h')%Z)) /\
  nearestHorizon candidates (Int 2) = Num (Int 1).
Proof. apply (C1_nearest_horizon_minimises 2). lia. Defined.

(** C8: monthsBetween clamps at 0: when the target date is at or before
    the last known date the month count is 0, and the reduce over
    [1, 3, 6] then returns the smallest horizon, 1. *)
Theorem C8_target_not_after_last (lastKnown target : Date) :
  valid_date lastKnown ->
  valid_date target ->
  date_le target lastKnown ->
  monthsBetween lastKnown target = Int 0 /\
  nearestHorizon candidates (monthsBetween lastKnown target) = Num (Int 1).
Proof.
  destruct lastKnown as [|ya ma da ta]; [done|].
  destruct target as [|yb mb db tb]; [done|].
  intros (Hma & _) (Hmb & _) Hle.
  assert (Hm : monthsBetween (LocalDate ya ma da ta) (LocalDate yb mb db tb)
               = Int 0).
  { unfold monthsBetween, Math_max, add, mul, sub; simpl.
    f_equal. simpl in Hle. lia. }
  by rewrite Hm.
Qed.

(** C8 on 2024-02-10 against a last observation of 2024-03-01. *)
Lemma C8_witness_february_before_march :
  monthsBetween (LocalDate 2024 2 1 0) (LocalDate 2024 1 10 0) = Int 0 /\
  nearestHorizon candidates
    (monthsBetween (LocalDate 2024 2 1 0) (LocalDate 2024 1 10 0))
  = Num (Int 1).
Proof.
  apply (C8_target_not_after_last (LocalDate 2024 2 1 0) (LocalDate 2024 1 10 0));
    simpl; lia.
Defined.

(** C9 as stated fails on the empty set: the reduce is given
    [candidates[0]] as initial value, so on an empty array it returns
    that value, [undefined], and throws nothing. *)
Lemma C9_counterexample_empty_set :
  resolveNearestHorizon [] (Int 2) = Return Undefined /\
  ~ exists e, resolveNearestHorizon [] (Int 2) = Throw e.
Proof.
  split; [reflexivity|]. intros [e He]. discriminate He.
Qed.

(** C9 (amended): on every non-empty horizon set the resolution returns a
    member of the set, whatever the month count (NaN included); on the
    empty set it returns [undefined] without failing. *)
Theorem C9_member_of_nonempty_set (cs : list Z) (m : num) :
  (cs <> [] ->
   exists h, h ∈ cs /\ resolveNearestHorizon cs m = Return (Num (Int h))) /\
  (cs = [] -> resolveNearestHorizon cs m = Return Undefined).
Proof.
  unfold resolveNearestHorizon. split.
  - intros Hne. destruct (nearestHorizon_member cs m Hne) as (h & Hin & ->).
    by exists h.
  - by intros ->.
Qed.

(** C9 (amended) on the set of the source and an unparsable date. *)
Lemma C9_witness_source_set :
  exists h, h ∈ candidates /\
            resolveNearestHorizon candidates NaN = Return (Num (Int h)).
Proof.
  apply (proj1 (C9_member_of_nonempty_set candidates NaN)). discriminate.
Defined.

End HorizonClaims.

Section PercentChange.
Import Planner.

(** C2: pctChange returns [(future - base) / base * 100] exactly when
    both arguments are finite numbers and [base] is not zero, and null in
    every other case; it is total, so it never throws.  In particular
    [pctChange(x, 0)] is null for every [x], [pctChange(NaN, 5)] is null
    and [pctChange(110, 100)] is 10. *)
Theorem C2_pctChange_defined_or_null (future base : value) :
  (forall f b,
      future = VNum f -> base = VNum b ->
      PrimFloat.is_finite f = true -> PrimFloat.is_finite b = true ->
      PrimFloat.eqb b 0 = false ->
      pctChange future base =
      VNum (PrimFloat.mul (PrimFloat.div (PrimFloat.sub f b) b) 100)) /\
  (~ (exists f b,
         future = VNum f /\ base = VNum b /\
         PrimFloat.is_finite f = true /\ PrimFloat.is_finite b = true /\
         PrimFloat.eqb b 0 = false) ->
   pctChange future base = VNull) /\
  (pctChange future base = VNull \/ exists x, pctChange future base = VNum x) /\
  pctChange future (VNum 0) = VNull /\
  pctChange future (VNum (-0)) = VNull /\
  pctChange (VNum PrimFloat.nan) (VNum 5) = VNull /\
  pctChange (VNum 110) (VNum 100) = VNum 10.
Proof.
  split; [|split; [|split; [|split; [|split; [|split]]]]].
  - intros f b -> -> Hf Hb Hz. unfold pctChange; simpl.
    by rewrite Hf, Hb, Hz.
  - intros Hnot. unfold pctChange.
    destruct future as [| | |f|]; try done.
    destruct base as [| | |b|]; simpl; try by rewrite ?andb_false_r.
    destruct (PrimFloat.is_finite f) eqn:Hf; [|done].
    destruct (PrimFloat.is_finite b) eqn:Hb; [|done].
    destruct (PrimFloat.eqb b 0) eqn:Hz; [done|].
    destruct Hnot. by exists f, b.
  - unfold pctChange.
    destruct (_ && _ && _); [|by left].
    destruct future, base; simpl; eauto.
  - unfold pctChange. simpl. by rewrite andb_false_r.
  - unfold pctChange. simpl. by rewrite andb_false_r.
  - reflexivity.
  - reflexivity.
Qed.

(** C2 at the pair the scenario of the spec uses. *)
Lemma C2_witness_102_over_98 :
  Planner.pctChange (VNum 102) (VNum 98) =
  VNum (PrimFloat.mul (PrimFloat.div (PrimFloat.sub 102 98) 98) 100).
Proof.
  apply (proj1 (C2_pctChange_defined_or_null (VNum 102) (VNum 98)) 102%float 98%float);
    reflexivity.
Defined.

End PercentChange.

Section MovingAverage.
Import Planner.

Lemma take3_drop {A} (l : list A) (j : nat) (x y z : A) :
  l !! j = Some x -> l !! S j = Some y -> l !! S (S j) = Some z ->
  take 3 (drop j l) = [x; y; z].
Proof.
  revert l. induction j as [|j IH]; intros l Hx Hy Hz.
  - destruct l as [|a [|b [|c l]]]; simplify_eq/=. done.
  - destruct l as [|a l]; [done|]. simpl in *. by apply IH.
Qed.

(** The slice of movingAverage at row [i] holds the elements at the
    indices of the window that ends at [i]. *)
Lemma slice_last3 {A} (l : list A) (i : nat) :
  (i < length l)%nat ->
  JS.slice (Z.to_nat (Z.max 0 (Z.of_nat i - 3 + 1))) (i + 1) l =
  omap (fun j => l !! j) (last3 i).
Proof.
  intros Hi. unfold JS.slice.
  destruct i as [|[|j]].
  - destruct l as [|a l]; [simpl in Hi; lia|]. done.
  - destruct l as [|a [|b l]]; simpl in Hi; try lia. done.
  - replace (Z.to_nat (Z.max 0 (Z.of_nat (S (S j)) - 3 + 1))) with j by lia.
    replace (S (S j) + 1 - j)%nat with 3%nat by lia.
    destruct (lookup_lt_is_Some_2 l j) as [x Hx]; [lia|].
    destruct (lookup_lt_is_Some_2 l (S j)) as [y Hy]; [lia|].
    destruct (lookup_lt_is_Some_2 l (S (S j))) as [z Hz]; [lia|].
    rewrite (take3_drop l j x y z) by done.
    simpl. by rewrite Hx, Hy, Hz.
Qed.

Lemma filter_finite_or_null (vs : list value) :
  List.filter Number_isFinite (finite_or_null <$> vs) =
  VNum <$> finite_floats vs.
Proof.
  induction vs as [|v vs IH]; [done|].
  unfold finite_floats in *. csimpl.
  unfold finite_or_null at 1.
  destruct v as [| | |f|]; csimpl; try done.
  destruct (PrimFloat.is_finite f) eqn:Hf; csimpl.
  - rewrite Hf. unfold finite_or_null, Number_isFinite.
    rewrite Hf. by rewrite <- IH.
  - exact IH.
Qed.

Lemma sum_of_numbers (fs : list float) (acc : float) :
  foldl (arith PrimFloat.add) (VNum acc) (VNum <$> fs) =
  VNum (fold_left PrimFloat.add fs acc).
Proof.
  revert acc. induction fs as [|f fs IH]; intros acc; [done|].
  simpl. by rewrite IH.
Qed.

Lemma mean_or_null_numbers (fs : list float) :
  mean_or_null (VNum <$> fs) =
  match fs with
  | [] => VNull
  | _ => VNum (mean fs)
  end.
Proof.
  unfold mean_or_null. rewrite length_fmap.
  destruct fs as [|f fs]; [done|].
  change (length (f :: fs)) with (S (length fs)). cbv iota beta.
  by rewrite sum_of_numbers.
Qed.

Lemma omap_lookup_fmap {A B} (f : A -> B) (l : list A) (idx : list nat) :
  omap (fun j => (f <$> l) !! j) idx = f <$> omap (fun j => l !! j) idx.
Proof.
  induction idx as [|j idx IH]; [done|].
  csimpl. rewrite list_lookup_fmap, IH.
  by destruct (l !! j).
Qed.

(** The central fact on the average: the value movingAverage computes at
    row [i] is the mean of the finite [actual] values of the window. *)
Lemma movingAverage_lookup (data : list obj) (i : nat) :
  (i < length data)%nat ->
  movingAverage (actuals data) 3 !! i = Some (ma3_spec data i).
Proof.
  intros Hi. unfold movingAverage.
  rewrite list_lookup_imap.
  assert (Hlen : (i < length (actuals data))%nat)
    by (unfold actuals; by rewrite length_fmap).
  destruct (lookup_lt_is_Some_2 _ _ Hlen) as [v ->]. simpl. f_equal.
  rewrite slice_last3 by done.
  unfold actuals.
  rewrite (list_fmap_compose (fun d => get d "actual") finite_or_null data
           : (fun d => if Number_isFinite (get d "actual")
                       then get d "actual" else VNull) <$> data = _).
  rewrite omap_lookup_fmap, filter_finite_or_null, mean_or_null_numbers.
  unfold ma3_spec, window3.
  assert (Heq : forall idx : list nat,
             omap (fun j => ((fun d => get d "actual") <$> data) !! j) idx =
             omap (fun j => (fun d => get d "actual") <$> data !! j) idx).
  { induction idx as [|j idx IH]; [done|].
    csimpl. by rewrite list_lookup_fmap, IH. }
  rewrite Heq. by destruct (finite_floats _).
Qed.

Lemma add_ma3_lookup (data : list obj) (i : nat) :
  add_ma3 data !! i = (fun d => <["ma3" := ma3_spec data i]> d) <$> data !! i.
Proof.
  unfold add_ma3. rewrite list_lookup_imap.
  destruct (data !! i) as [d|] eqn:Hd; [|done]. simpl.
  rewrite movingAverage_lookup by by eapply lookup_lt_Some.
  done.
Qed.

End MovingAverage.

Section MonthOverMonth.
Import Planner.

Lemma mom_value_spec (p c : obj) : mom_value p c = mom_spec p c.
Proof.
  unfold mom_value, mom_spec, shown.
  destruct (nullish (get c "actual") (get c "forecast")) as [| | |x|];
    destruct (nullish (get p "actual") (get p "forecast")) as [| | |y|];
    simpl; try done; try by rewrite andb_false_r.
  rewrite (andb_comm (PrimFloat.is_finite y)).
  by destruct (_ && _).
Qed.

Lemma shown_insert (k : string) (v : value) (d : obj) :
  k <> "actual" -> k <> "forecast" -> shown (<[k := v]> d) = shown d.
Proof.
  intros Ha Hf. unfold shown, get.
  by rewrite !lookup_insert_ne.
Qed.

Lemma mom_spec_insert_l (k : string) (v : value) (p c : obj) :
  k <> "actual" -> k <> "forecast" ->
  mom_spec (<[k := v]> p) c = mom_spec p c.
Proof. intros. unfold mom_spec. by rewrite shown_insert. Qed.

Lemma mom_spec_insert_r (k : string) (v : value) (p c : obj) :
  k <> "actual" -> k <> "forecast" ->
  mom_spec p (<[k := v]> c) = mom_spec p c.
Proof. intros. unfold mom_spec. by rewrite shown_insert. Qed.

Lemma mom_spec_mom_row (data : list obj) (n : nat) (p c : obj) :
  mom_spec (mom_row data n p) c = mom_spec p c.
Proof.
  destruct n as [|n]; simpl; [done|].
  destruct (data !! n); [|done].
  by apply mom_spec_insert_l.
Qed.

(** The loop after its first [n] iterations: rows 1 to [n] carry their
    change, the rest is untouched. *)
Lemma add_mom_prefix (data : list obj) (n : nat) :
  (n <= length data - 1)%nat ->
  foldl mom_iter data (seq 1 n) =
  imap (fun i c => if decide (i <= n)%nat then mom_row data i c else c) data.
Proof.
  induction n as [|n IH]; intros Hn.
  - simpl. apply list_eq. intros i. rewrite list_lookup_imap.
    destruct (data !! i) as [c|]; [|done]. simpl.
    case_decide; [|done]. by replace i with 0%nat by lia.
  - rewrite seq_S, foldl_app, IH by lia. simpl.
    unfold mom_iter. replace (S n - 1)%nat with n by lia.
    rewrite !list_lookup_imap.
    destruct (lookup_lt_is_Some_2 data n) as [p Hp]; [lia|].
    destruct (lookup_lt_is_Some_2 data (S n)) as [c Hc]; [lia|].
    rewrite Hp, Hc. simpl.
    rewrite decide_True by lia. rewrite decide_False by lia.
    apply list_eq. intros i.
    destruct (decide (i = S n)) as [->|Hne].
    + rewrite list_lookup_insert_eq by (rewrite length_imap; lia).
      rewrite list_lookup_imap, Hc. simpl.
      rewrite decide_True by lia. simpl. rewrite Hp.
      by rewrite mom_value_spec, mom_spec_mom_row.
    + rewrite list_lookup_insert_ne by done.
      rewrite !list_lookup_imap.
      destruct (data !! i) as [d|]; [|done]. simpl.
      destruct (decide (i <= n)%nat).
      * by rewrite decide_True by lia.
      * by rewrite decide_False by lia.
Qed.

Lemma add_mom_lookup (data : list obj) (i : nat) :
  add_mom data !! i = mom_row data i <$> data !! i.
Proof.
  unfold add_mom. rewrite add_mom_prefix by done.
  rewrite list_lookup_imap.
  destruct (data !! i) as [c|] eqn:Hc; [|done]. simpl.
  apply lookup_lt_Some in Hc.
  by rewrite decide_True by lia.
Qed.

(** Both enrichment steps keep the number of rows. *)
Lemma add_ma3_length (data : list obj) : length (add_ma3 data) = length data.
Proof. unfold add_ma3. by rewrite length_imap. Qed.

Lemma add_mom_length (data : list obj) : length (add_mom data) = length data.
Proof.
  unfold add_mom. rewrite add_mom_prefix by done. by rewrite length_imap.
Qed.

End MonthOverMonth.

Section Enrichment.

(** The dashboard carries its own copy of the planner's enrichment. *)
Lemma dashboard_add_ma3 (data : list obj) :
  Dashboard.add_ma3 data = Planner.add_ma3 data.
Proof.
  unfold Dashboard.add_ma3, Planner.add_ma3, Planner.movingAverage,
    Planner.actuals, Planner.mean_or_null.
  apply imap_ext. intros i d _.
  apply (f_equal (fun ma3 : list value =>
                    <["ma3" := default VUndef (ma3 !! i)]> d)).
  apply imap_ext. intros j v _. simpl.
  by replace (Z.of_nat j - 3 + 1)%Z with (Z.of_nat j - 2)%Z by lia.
Qed.

Lemma dashboard_enriched (chart : list obj) (showMA changeView : bool) :
  Dashboard.enriched chart showMA changeView =
  Planner.enrichedData chart showMA changeView.
Proof.
  unfold Dashboard.enriched, Planner.enrichedData, Planner.add_mom.
  change Dashboard.mom_iter with Planner.mom_iter.
  destruct showMA; [|done].
  by rewrite dashboard_add_ma3.
Qed.

(** Row by row, enrichment is [enriched_row]. *)
Lemma enrichedData_lookup (chart : list obj) (showMA changeView : bool)
    (i : nat) :
  Planner.enrichedData chart showMA changeView !! i =
  enriched_row chart showMA changeView i <$> chart !! i.
Proof.
  unfold Planner.enrichedData. rewrite list_fmap_id.
  destruct changeView.
  - rewrite add_mom_lookup.
    destruct showMA.
    + rewrite add_ma3_lookup.
      destruct (chart !! i) as [d|] eqn:Hd; [|done]. simpl.
      f_equal. unfold enriched_row, mom_row.
      destruct i as [|j]; [done|].
      rewrite add_ma3_lookup.
      destruct (chart !! j) as [p|]; [|done]. simpl.
      by rewrite mom_spec_insert_l, mom_spec_insert_r.
    + by destruct (chart !! i).
  - destruct showMA; [|by destruct (chart !! i)].
    by rewrite add_ma3_lookup.
Qed.

Lemma enrichedData_length (chart : list obj) (showMA changeView : bool) :
  length (Planner.enrichedData chart showMA changeView) = length chart.
Proof.
  unfold Planner.enrichedData. rewrite list_fmap_id.
  destruct showMA, changeView;
    by rewrite ?add_mom_length, ?add_ma3_length.
Qed.

(** A row of the enriched series differs from its source row on ma3 and
    mom at most. *)
Lemma enriched_row_frame (chart : list obj) (showMA changeView : bool)
    (i : nat) (d : obj) (k : string) :
  input_field k ->
  enriched_row chart showMA changeView i d !! k = d !! k.
Proof.
  intros [Hma Hmom]. unfold enriched_row.
  destruct changeView, showMA, i as [|j]; simpl;
    try destruct (chart !! j);
    by rewrite ?lookup_insert_ne.
Qed.

End Enrichment.

Section EnrichmentClaims.

(** C6: with the moving average enabled, the ma3 value of every row [i]
    of the series, in the planner and in the dashboard, is the mean of
    the finite [actual] values among rows [i - 2 .. i] (fewer rows near
    the start); values that are not finite numbers count neither in the
    sum nor in the denominator, and the value is null when the window
    holds no finite value.  For the one-point history [100] the average
    at index 0 is 100; for the history [null, null] it is null at both
    indices. *)
Theorem C6_moving_average_of_window (chart : list obj) (changeView : bool)
    (i : nat) (d : obj) :
  chart !! i = Some d ->
  (exists e, Planner.enrichedData chart true changeView !! i = Some e /\
             e !! "ma3" = Some (ma3_spec chart i)) /\
  (exists e, Dashboard.enriched chart true changeView !! i = Some e /\
             e !! "ma3" = Some (ma3_spec chart i)) /\
  ma3_column (Planner.enrichedData
                (Planner.chartData [point "2024-01" (VNum 100)] ∅)
                true changeView)
  = [Some (VNum 100)] /\
  ma3_column (Planner.enrichedData
                (Planner.chartData
                   [point "2024-01" VNull; point "2024-02" VNull] ∅)
                true changeView)
  = [Some VNull; Some VNull] /\
  ma3_column (Dashboard.enriched
                (Dashboard.chartData [point "2024-01" (VNum 100)] [])
                true changeView)
  = [Some (VNum 100)] /\
  ma3_column (Dashboard.enriched
                (Dashboard.chartData
                   [point "2024-01" VNull; point "2024-02" VNull] [])
                true changeView)
  = [Some VNull; Some VNull].
Proof.
  intros Hd.
  assert (Hrow : exists e,
             Planner.enrichedData chart true changeView !! i = Some e /\
             e !! "ma3" = Some (ma3_spec chart i)).
  { exists (enriched_row chart true changeView i d). split.
    - by rewrite enrichedData_lookup, Hd.
    - unfold enriched_row.
      destruct changeView, i as [|j]; simpl;
        try destruct (chart !! j);
        by rewrite ?(lookup_insert_ne _ "mom" "ma3"), ?lookup_insert_eq. }
  split; [done|]. split; [by rewrite dashboard_enriched|].
  destruct changeView; vm_compute; done.
Qed.

(** C6 on the last row of a three-row series whose middle value is
    missing. *)
Lemma C6_witness_gap_in_window :
  exists e,
    Planner.enrichedData
      [Planner.histRow (point "2024-01" (VNum 100));
       Planner.histRow (point "2024-02" VNull);
       Planner.histRow (point "2024-03" (VNum 98))] true false !! 2%nat
    = Some e /\
    e !! "ma3" =
    Some (ma3_spec
            [Planner.histRow (point "2024-01" (VNum 100));
             Planner.histRow (point "2024-02" VNull);
             Planner.histRow (point "2024-03" (VNum 98))] 2).
Proof.
  exact (proj1 (C6_moving_average_of_window
                  [Planner.histRow (point "2024-01" (VNum 100));
                   Planner.histRow (point "2024-02" VNull);
                   Planner.histRow (point "2024-03" (VNum 98))]
                  false 2 (Planner.histRow (point "2024-03" (VNum 98)))
                  eq_refl)).
Defined.

(** No row of a merged series carries a change or an average yet. *)
Lemma chartData_rows_plain (hist : list obj) (bundle : gmap string (list obj))
    (d : obj) :
  d ∈ Planner.chartData hist bundle -> d !! "mom" = None /\ d !! "ma3" = None.
Proof.
  unfold Planner.chartData. cbv zeta. rewrite elem_of_app, !list_elem_of_fmap.
  intros [(p & -> & _)|(p & -> & _)]; by vm_compute.
Qed.

Lemma dashboard_chartData_rows_plain (history futurePoints : list obj)
    (d : obj) :
  d ∈ Dashboard.chartData history futurePoints ->
  d !! "mom" = None /\ d !! "ma3" = None.
Proof.
  unfold Dashboard.chartData. cbv zeta.
  rewrite elem_of_app, !list_elem_of_fmap.
  intros [(p & -> & _)|(p & -> & _)]; by vm_compute.
Qed.

(** C7: with the change view enabled, every row after the first gets
    [mom = current.(actual ?? forecast) - previous.(actual ?? forecast)],
    or null when either side is not a finite number, in the planner and
    in the dashboard; the first row is left as it was, and in a merged
    series it has no mom value. *)
Theorem C7_month_over_month_change (chart : list obj) (showMA : bool)
    (i : nat) (prev curr : obj) :
  chart !! i = Some prev ->
  chart !! S i = Some curr ->
  (exists e, Planner.enrichedData chart showMA true !! S i = Some e /\
             e !! "mom" = Some (mom_spec prev curr)) /\
  (exists e, Dashboard.enriched chart showMA true !! S i = Some e /\
             e !! "mom" = Some (mom_spec prev curr)) /\
  (forall first, chart !! 0%nat = Some first ->
     exists e, Planner.enrichedData chart showMA true !! 0%nat = Some e /\
               Dashboard.enriched chart showMA true !! 0%nat = Some e /\
               e !! "mom" = first !! "mom") /\
  (forall hist bundle e,
     Planner.enrichedData (Planner.chartData hist bundle) showMA true !! 0%nat
     = Some e ->
     e !! "mom" = None) /\
  (forall history futurePoints e,
     Dashboard.enriched (Dashboard.chartData history futurePoints) showMA true
       !! 0%nat = Some e ->
     e !! "mom" = None).
Proof.
  intros Hp Hc.
  assert (Hrow : exists e,
             Planner.enrichedData chart showMA true !! S i = Some e /\
             e !! "mom" = Some (mom_spec prev curr)).
  { exists (enriched_row chart showMA true (S i) curr). split.
    - by rewrite enrichedData_lookup, Hc.
    - unfold enriched_row. rewrite Hp. by rewrite lookup_insert_eq. }
  assert (Hfirst : forall (rows : list obj) (first e : obj),
             rows !! 0%nat = Some first ->
             Planner.enrichedData rows showMA true !! 0%nat = Some e ->
             e !! "mom" = first !! "mom").
  { intros rows first e H0. rewrite enrichedData_lookup, H0. simpl.
    intros [= <-]. unfold enriched_row.
    destruct showMA; [|done]. by rewrite lookup_insert_ne. }
  split; [done|]. split; [by rewrite dashboard_enriched|].
  split; [|split].
  - intros first H0.
    exists (enriched_row chart showMA true 0 first).
    rewrite dashboard_enriched, enrichedData_lookup, H0.
    split; [done|]. split; [done|].
    apply (Hfirst chart); [done|]. by rewrite enrichedData_lookup, H0.
  - intros hist bundle e He.
    destruct (Planner.chartData hist bundle !! 0%nat) as [first|] eqn:H0.
    + rewrite (Hfirst _ first e H0 He).
      apply (chartData_rows_plain hist bundle).
      by eapply list_elem_of_lookup_2.
    + by rewrite enrichedData_lookup, H0 in He.
  - intros history futurePoints e. rewrite dashboard_enriched. intros He.
    destruct (Dashboard.chartData history futurePoints !! 0%nat)
      as [first|] eqn:H0.
    + rewrite (Hfirst _ first e H0 He).
      apply (dashboard_chartData_rows_plain history futurePoints).
      by eapply list_elem_of_lookup_2.
    + by rewrite enrichedData_lookup, H0 in He.
Qed.

(** C7 across the boundary between the last observation and the first
    forecast. *)
Lemma C7_witness_observed_to_forecast :
  exists e,
    Planner.enrichedData
      [Planner.histRow (point "2024-03" (VNum 98));
       Planner.foreRow (bundle_point "2024-09" (VNum 102) VNull VNull)]
      false true !! 1%nat = Some e /\
    e !! "mom" =
    Some (mom_spec
            (Planner.histRow (point "2024-03" (VNum 98)))
            (Planner.foreRow (bundle_point "2024-09" (VNum 102) VNull VNull))).
Proof.
  exact (proj1 (C7_month_over_month_change
                  [Planner.histRow (point "2024-03" (VNum 98));
                   Planner.foreRow
                     (bundle_point "2024-09" (VNum 102) VNull VNull)]
                  false 0
                  (Planner.histRow (point "2024-03" (VNum 98)))
                  (Planner.foreRow
                     (bundle_point "2024-09" (VNum 102) VNull VNull))
                  eq_refl eq_refl)).
Defined.

(** C10: enrichment keeps the frame of the merged series.  For every
    series and every setting of showMA and changeView, in the planner and
    in the dashboard, the enriched series has as many rows as its input,
    and at every row each property other than ma3 and mom, present or
    absent, is exactly as in the input row. *)
Theorem C10_enrichment_preserves_rows (chart : list obj)
    (showMA changeView : bool) :
  length (Planner.enrichedData chart showMA changeView) = length chart /\
  length (Dashboard.enriched chart showMA changeView) = length chart /\
  (forall i d, chart !! i = Some d ->
     exists e,
       Planner.enrichedData chart showMA changeView !! i = Some e /\
       Dashboard.enriched chart showMA changeView !! i = Some e /\
       forall k, input_field k -> e !! k = d !! k).
Proof.
  rewrite dashboard_enriched.
  split; [apply enrichedData_length|].
  split; [apply enrichedData_length|].
  intros i d Hd.
  exists (enriched_row chart showMA changeView i d).
  rewrite enrichedData_lookup, Hd.
  split; [done|]. split; [done|].
  intros k Hk. by apply enriched_row_frame.
Qed.

(** C10 on the forecast row of a two-row series, both views on. *)
Lemma C10_witness_forecast_row :
  exists e,
    Planner.enrichedData
      [Planner.histRow (point "2024-03" (VNum 98));
       Planner.foreRow (bundle_point "2024-09" (VNum 102) (VNum 95) (VNum 110))]
      true true !! 1%nat = Some e /\
    Dashboard.enriched
      [Planner.histRow (point "2024-03" (VNum 98));
       Planner.foreRow (bundle_point "2024-09" (VNum 102) (VNum 95) (VNum 110))]
      true true !! 1%nat = Some e /\
    forall k, input_field k ->
      e !! k =
      Planner.foreRow (bundle_point "2024-09" (VNum 102) (VNum 95) (VNum 110))
        !! k.
Proof.
  exact (proj2 (proj2 (C10_enrichment_preserves_rows
                  [Planner.histRow (point "2024-03" (VNum 98));
                   Planner.foreRow
                     (bundle_point "2024-09" (VNum 102) (VNum 95) (VNum 110))]
                  true true)) 1%nat
           (Planner.foreRow
              (bundle_point "2024-09" (VNum 102) (VNum 95) (VNum 110)))
           eq_refl).
Defined.

End EnrichmentClaims.

Section Merge.

Lemma string_leb_trans (s t u : string) :
  String.leb s t = true -> String.leb t u = true -> String.leb s u = true.
Proof.
  unfold String.leb. revert t u.
  induction s as [|a s IH]; intros [|b t] [|c u]; simpl; try done.
  unfold Ascii.compare.
  destruct (N.compare_spec (Ascii.N_of_ascii a) (Ascii.N_of_ascii b))
    as [Hab|Hab|Hab]; [| |done];
    destruct (N.compare_spec (Ascii.N_of_ascii b) (Ascii.N_of_ascii c))
      as [Hbc|Hbc|Hbc]; try done; intros H1 H2.
  - rewrite Hab, Hbc, N.compare_refl. by apply (IH t u).
  - rewrite Hab. by rewrite (proj2 (N.compare_lt_iff _ _) Hbc).
  - rewrite <- Hbc. by rewrite (proj2 (N.compare_lt_iff _ _) Hab).
  - by rewrite (proj2 (N.compare_lt_iff _ _) (N.lt_trans _ _ _ Hab Hbc)).
Qed.

Lemma date_le_trans (a b c : value) :
  date_le a b -> date_le b c -> date_le a c.
Proof.
  destruct a as [| | | |s], b as [| | | |t], c as [| | | |u]; simpl; try done.
  apply string_leb_trans.
Qed.

(** Neighbour by neighbour order is order throughout. *)
Lemma non_decreasing_chronological (ds : list value) :
  non_decreasing ds -> chronological ds.
Proof.
  intros Hnd i j a b Hij. revert b.
  induction Hij as [|j Hij IH]; intros b Ha Hb.
  - by apply (Hnd i).
  - destruct (lookup_lt_is_Some_2 ds j) as [c Hc].
    { apply lookup_lt_Some in Hb. lia. }
    apply (date_le_trans a c b); [by apply IH|by apply (Hnd j)].
Qed.

Lemma non_decreasing_app (l1 l2 : list value) :
  non_decreasing l1 ->
  non_decreasing l2 ->
  (forall a, last l1 = Some a -> Forall (date_le a) l2) ->
  non_decreasing (l1 ++ l2).
Proof.
  intros H1 H2 Hlast i a b Ha Hb.
  destruct (decide (S i < length l1)%nat) as [Hin1|Hout1].
  - rewrite lookup_app_l in Ha by lia. rewrite lookup_app_l in Hb by lia.
    by apply (H1 i).
  - destruct (decide (length l1 <= i)%nat) as [Hin2|Hedge].
    + rewrite lookup_app_r in Ha by lia. rewrite lookup_app_r in Hb by lia.
      apply (H2 (i - length l1)%nat); [done|].
      by replace (S (i - length l1)) with (S i - length l1)%nat by lia.
    + assert (Hi : S i = length l1) by lia.
      rewrite lookup_app_l in Ha by lia. rewrite lookup_app_r in Hb by lia.
      assert (Hl : last l1 = Some a).
      { rewrite last_lookup. by replace (pred (length l1)) with i by lia. }
      specialize (Hlast a Hl).
      rewrite Forall_forall in Hlast. apply Hlast.
      by eapply list_elem_of_lookup_2.
Qed.

Lemma planner_chartData_columns (hist : list obj)
    (bundle : gmap string (list obj)) :
  columns (Planner.chartData hist bundle) =
  ((fun p => (get p "date", get p "y", VUndef)) <$> hist) ++
  ((fun q => (get q "date", VUndef, get q "yhat")) <$>
     default [] (bundle !! "6")).
Proof.
  unfold columns, Planner.chartData. cbv zeta.
  rewrite fmap_app, <- !list_fmap_compose.
  f_equal; apply list_fmap_ext; intros i p _; by vm_compute.
Qed.

Lemma dashboard_chartData_columns (history futurePoints : list obj) :
  columns (Dashboard.chartData history futurePoints) =
  ((fun p => (get p "date", get p "y", VNull)) <$> history) ++
  ((fun q => (get q "date", VNull, get q "forecast")) <$> futurePoints).
Proof.
  unfold columns, Dashboard.chartData. cbv zeta.
  rewrite fmap_app, <- !list_fmap_compose.
  f_equal; apply list_fmap_ext; intros i p _; by vm_compute.
Qed.

Lemma dates_columns (rows : list obj) :
  dates rows = (fun c : value * value * value => c.1.1) <$> columns rows.
Proof. unfold dates, columns. by rewrite <- list_fmap_compose. Qed.

Lemma planner_chartData_dates (hist : list obj)
    (bundle : gmap string (list obj)) :
  dates (Planner.chartData hist bundle) =
  dates hist ++ dates (default [] (bundle !! "6")).
Proof.
  rewrite dates_columns, planner_chartData_columns.
  unfold dates. by rewrite fmap_app, <- !list_fmap_compose.
Qed.

Lemma dashboard_chartData_dates (history futurePoints : list obj) :
  dates (Dashboard.chartData history futurePoints) =
  dates history ++ dates futurePoints.
Proof.
  rewrite dates_columns, dashboard_chartData_columns.
  unfold dates. by rewrite fmap_app, <- !list_fmap_compose.
Qed.

(** C3: the merged series is the observed rows, each with its [actual]
    set and no forecast, followed by the forecast rows, each with its
    [forecast] set and no actual, both in the order they came in; nothing
    is sorted.  Hence when the observed dates are non-decreasing, the
    forecast dates are non-decreasing and none precedes the last observed
    date, the dates of the merged series are non-decreasing from end to
    end (neighbour by neighbour, hence every row is dated at or before
    every later row), in the planner and in the dashboard.  A forecast
    row of the planner also carries the lo/hi band of its point. *)
Theorem C3_merge_keeps_date_order (hist fore : list obj)
    (bundle : gmap string (list obj)) :
  bundle !! "6" = Some fore ->
  columns (Planner.chartData hist bundle) =
    ((fun p => (get p "date", get p "y", VUndef)) <$> hist) ++
    ((fun q => (get q "date", VUndef, get q "yhat")) <$> fore) /\
  columns (Dashboard.chartData hist fore) =
    ((fun p => (get p "date", get p "y", VNull)) <$> hist) ++
    ((fun q => (get q "date", VNull, get q "forecast")) <$> fore) /\
  (non_decreasing (dates hist) ->
   non_decreasing (dates fore) ->
   (forall lastDate, last (dates hist) = Some lastDate ->
                     Forall (date_le lastDate) (dates fore)) ->
   non_decreasing (dates (Planner.chartData hist bundle)) /\
   non_decreasing (dates (Dashboard.chartData hist fore)) /\
   chronological (dates (Planner.chartData hist bundle)) /\
   chronological (dates (Dashboard.chartData hist fore))).
Proof.
  intros H6.
  split; [by rewrite planner_chartData_columns, H6|].
  split; [apply dashboard_chartData_columns|].
  intros Hh Hf Hlast.
  rewrite planner_chartData_dates, dashboard_chartData_dates, H6. simpl.
  assert (Hnd : non_decreasing (dates hist ++ dates fore))
    by by apply non_decreasing_app.
  split; [done|]. split; [done|].
  split; by apply non_decreasing_chronological.
Qed.

(** C3 on the scenario of the spec. *)
Lemma C3_witness_rice_scenario :
  non_decreasing
    (dates (Planner.chartData rice_history {[ "6" := rice_forecast ]})) /\
  non_decreasing (dates (Dashboard.chartData rice_history rice_forecast)) /\
  chronological
    (dates (Planner.chartData rice_history {[ "6" := rice_forecast ]})) /\
  chronological (dates (Dashboard.chartData rice_history rice_forecast)).
Proof.
  refine (proj2 (proj2 (C3_merge_keeps_date_order
                          rice_history rice_forecast
                          {[ "6" := rice_forecast ]} _)) _ _ _).
  - apply lookup_singleton_eq.
  - intros [|[|[|i]]] a b Ha Hb; vm_compute in Ha, Hb; simplify_eq;
      by vm_compute.
  - intros [|i] a b Ha Hb; vm_compute in Ha, Hb; simplify_eq.
  - intros lastDate Hl. vm_compute in Hl. simplify_eq.
    repeat constructor.
Defined.

End Merge.

Section PartialFailure.
Import Buyer.

Lemma horizon_cases (x : Z) :
  x ∈ [1; 3; 6]%Z <-> x = 1%Z \/ x = 3%Z \/ x = 6%Z.
Proof. rewrite !elem_of_cons, elem_of_nil. tauto. Qed.



(** A refused horizon leaves its key of the bundle as it was. *)
Lemma forecast_loop_skips (srv : server) (hs : list Z)
    (out0 out : gmap string (list obj)) (hf : Z) (resp : response predict_json) :
  predict srv hf = Return resp -> ok resp = false ->
  Planner.forecast_loop srv hs out0 = Return out ->
  out !! pretty hf = out0 !! pretty hf.
Proof.
  intros Hresp Hok. revert out0.
  induction hs as [|x hs IH]; intros out0 Hloop; simpl in Hloop.
  - by injection Hloop as <-.
  - destruct (predict srv x) as [rx|] eqn:Hx; [|done]. simpl in Hloop.
    destruct (ok rx) eqn:Hokx; simpl in Hloop; [|by apply IH].
    destruct (json rx) as [jx|]; [|done]. simpl in Hloop.
    rewrite (IH _ Hloop). apply lookup_insert_ne.
    intros Heq. apply (inj pretty) in Heq as ->. congruence.
Qed.

(** An accepted horizon, met by the loop or already stored, has its
    entry in the bundle at the end. *)
Lemma forecast_loop_stores (srv : server) (hs : list Z)
    (out0 out : gmap string (list obj)) (h' : Z) (r : response predict_json)
    (j : predict_json) :
  predict srv h' = Return r -> ok r = true -> json r = Return j ->
  Planner.forecast_loop srv hs out0 = Return out ->
  h' ∈ hs \/
  out0 !! pretty h' =
    Some [bundle_entry (kpi_future_date j (pretty h' +:+ "m"))
                       (kpi_field j ("pred_" +:+ pretty h' +:+ "m"))] ->
  out !! pretty h' =
    Some [bundle_entry (kpi_future_date j (pretty h' +:+ "m"))
                       (kpi_field j ("pred_" +:+ pretty h' +:+ "m"))].
Proof.
  intros Hr Hok Hj. revert out0.
  induction hs as [|x hs IH]; intros out0 Hloop Hsrc; simpl in Hloop.
  - injection Hloop as <-. destruct Hsrc as [Hin|Hin]; [|done].
    by apply elem_of_nil in Hin.
  - destruct (predict srv x) as [rx|] eqn:Hx; [|done]. simpl in Hloop.
    destruct (decide (x = h')) as [->|Hne].
    + assert (rx = r) as -> by congruence.
      rewrite Hok, Hj in Hloop. simpl in Hloop.
      apply (IH _ Hloop). right. apply lookup_insert_eq.
    + assert (Hsrc' : h' ∈ hs \/
                out0 !! pretty h' =
                Some [bundle_entry (kpi_future_date j (pretty h' +:+ "m"))
                        (kpi_field j ("pred_" +:+ pretty h' +:+ "m"))]).
      { destruct Hsrc as [Hin|Hin]; [|by right].
        apply elem_of_cons in Hin as [->|Hin]; [done|by left]. }
      destruct (ok rx); simpl in Hloop; [|by apply (IH _ Hloop)].
      destruct (json rx) as [jx|]; [|done]. simpl in Hloop.
      apply (IH _ Hloop).
      destruct Hsrc' as [Hin|Hin]; [by left|right].
      rewrite lookup_insert_ne; [done|].
      intros Heq. by apply (inj pretty) in Heq.
Qed.






End PartialFailure.

Section StaleResponses.
Import Dashboard.

Lemma run_app (s : state) (evs1 evs2 : list event) :
  run s (evs1 ++ evs2) = run (run s evs1) evs2.
Proof. apply foldl_app. Qed.

(** The counter never goes back. *)
Lemma step_latestReq_mono (s : state) (ev : event) :
  (latestReq s <= latestReq (step s ev))%nat.
Proof.
  destruct ev as [c r|reqId r1|reqId h]; simpl.
  - destruct (_ || _); simpl; lia.
  - destruct (pending s !! reqId) as [[|]|]; try done.
    by destruct (negb _).
  - destruct (pending s !! reqId) as [[|]|]; try done.
    by destruct (negb _).
Qed.

Lemma run_latestReq_mono (evs : list event) (s : state) :
  (latestReq s <= latestReq (run s evs))%nat.
Proof.
  revert s. induction evs as [|ev evs IH]; intros s; [done|].
  simpl. etrans; [apply (step_latestReq_mono s ev)|apply IH].
Qed.

(** A selection with a commodity and a region issues the next id. *)
Lemma step_select (s : state) (commodity region : string) :
  commodity <> "" -> region <> "" ->
  step s (Select commodity region) =
  {| latestReq := S (latestReq s); kpi := kpi s; history := history s;
     pending := <[S (latestReq s) := AwaitPredict]> (pending s) |}.
Proof.
  intros Hc Hr. simpl.
  apply String.eqb_neq in Hc, Hr. by rewrite Hc, Hr.
Qed.

(** A response whose id is no longer the latest changes neither the kpi
    nor the history, and does not touch the counter. *)
Lemma step_stale_predict (s : state) (reqId : nat) (r1 : outcome predict_json) :
  reqId <> latestReq s ->
  kpi (step s (PredictSettled reqId r1)) = kpi s /\
  history (step s (PredictSettled reqId r1)) = history s /\
  latestReq (step s (PredictSettled reqId r1)) = latestReq s.
Proof.
  intros Hne. simpl.
  destruct (pending s !! reqId) as [[|]|]; try done.
  apply Nat.eqb_neq in Hne. by rewrite Hne.
Qed.

Lemma step_stale_series (s : state) (reqId : nat) (h : outcome series_json) :
  reqId <> latestReq s ->
  kpi (step s (SeriesSettled reqId h)) = kpi s /\
  history (step s (SeriesSettled reqId h)) = history s /\
  latestReq (step s (SeriesSettled reqId h)) = latestReq s.
Proof.
  intros Hne. simpl.
  destruct (pending s !! reqId) as [[|]|]; try done.
  apply Nat.eqb_neq in Hne. by rewrite Hne.
Qed.

(** C4: take any history of the component in which selection A issues
    its request and, later, selection B issues its own.  The id A
    captured is smaller than B's, and from then on, whatever else has
    happened (B's responses applied or not, further selections), a
    response of A, to /predict or to /series, successful or failed,
    changes neither the kpi nor the history: it is compared with the
    latest counter on arrival and dropped.  B's response, arriving while
    B is the latest request, is applied. *)
Theorem C4_stale_response_never_applied
    (before between after : list event)
    (commodityA regionA commodityB regionB : string) :
  commodityA <> "" -> regionA <> "" ->
  commodityB <> "" -> regionB <> "" ->
  let sA := run initial (before ++ [Select commodityA regionA]) in
  let sB := run sA (between ++ [Select commodityB regionB]) in
  let s := run sB after in
  let a := latestReq sA in
  let b := latestReq sB in
  pending sA !! a = Some AwaitPredict /\
  pending sB !! b = Some AwaitPredict /\
  (a < b)%nat /\
  (forall r1,
     kpi (step s (PredictSettled a r1)) = kpi s /\
     history (step s (PredictSettled a r1)) = history s) /\
  (forall h,
     kpi (step s (SeriesSettled a h)) = kpi s /\
     history (step s (SeriesSettled a h)) = history s) /\
  (forall r1,
     kpi (step sB (PredictSettled b (Return r1))) = kpi_of r1 /\
     kpi (step (step sB (PredictSettled b (Return r1)))
               (PredictSettled a (Throw (Error "late")))) = kpi_of r1).
Proof.
  intros HcA HrA HcB HrB sA sB s a b.
  assert (HsA : sA = step (run initial before) (Select commodityA regionA)).
  { unfold sA. by rewrite run_app. }
  assert (HsB : sB = step (run sA between) (Select commodityB regionB)).
  { unfold sB. by rewrite run_app. }
  rewrite step_select in HsA, HsB by done.
  assert (Ha : a = S (latestReq (run initial before))).
  { unfold a. by rewrite HsA. }
  assert (Hb : b = S (latestReq (run sA between))).
  { unfold b. by rewrite HsB. }
  assert (Hab : (a < b)%nat).
  { rewrite Hb. pose proof (run_latestReq_mono between sA). unfold a. lia. }
  assert (Hs : (b <= latestReq s)%nat).
  { unfold s, b. apply run_latestReq_mono. }
  assert (HpB : pending sB !! b = Some AwaitPredict).
  { rewrite Hb. rewrite HsB at 1. simpl. apply lookup_insert_eq. }
  split; [|split; [done|split; [done|split; [|split]]]].
  - rewrite Ha. rewrite HsA at 1. simpl. apply lookup_insert_eq.
  - intros r1.
    destruct (step_stale_predict s a r1) as (? & ? & _); [lia|done].
  - intros h.
    destruct (step_stale_series s a h) as (? & ? & _); [lia|done].
  - intros r1.
    assert (Hk : kpi (step sB (PredictSettled b (Return r1))) = kpi_of r1).
    { simpl. rewrite HpB. fold b. by rewrite Nat.eqb_refl. }
    split; [done|].
    destruct (step_stale_predict (step sB (PredictSettled b (Return r1))) a
                (Throw (Error "late"))) as (-> & _); [|done].
    destruct (step_stale_predict sB a (Return r1)) as (_ & _ & _); [lia|].
    simpl. rewrite HpB. fold b. rewrite Nat.eqb_refl. simpl. lia.
Qed.

(** C4 on Rice then Fish, the response for Fish applied first and the
    aborted request for Rice settling after it. *)
Lemma C4_witness_rice_then_fish :
  let sA := run initial ([] ++ [Select "Rice" "All"]) in
  let sB := run sA ([] ++ [Select "Fish" "All"]) in
  let s := run sB [PredictSettled 2 (Return rice_predict_json)] in
  kpi (step s (PredictSettled (latestReq sA) (Throw (Error "aborted")))) = kpi s /\
  history (step s (PredictSettled (latestReq sA) (Throw (Error "aborted"))))
  = history s.
Proof.
  refine (proj1 (proj2 (proj2 (proj2
            (C4_stale_response_never_applied
               [] [] [PredictSettled 2 (Return rice_predict_json)]
               "Rice" "All" "Fish" "All" _ _ _ _))))
            (Throw (Error "aborted")));
    discriminate.
Defined.

End StaleResponses.

(* ===================================================================== *)
(** * Further properties of the code                                      *)
(* ===================================================================== *)

Section MonthDistance.
Import Buyer.





(** X2: a date string that does not parse, on either side, makes the
    month distance NaN, whatever the other date; every comparison of
    the reduce is then false and the 1-month horizon is kept. *)
Theorem X2_unparsable_date_resolves_to_one_month (a b : Date) :
  a = InvalidDate \/ b = InvalidDate ->
  monthsBetween a b = NaN /\
  nearestHorizon candidates (monthsBetween a b) = Num (Int 1).
Proof.
  intros [-> | ->].
  - by destruct b.
  - by destruct a.
Qed.

(** X2 on an unparsable purchase date. *)
Lemma X2_witness_unparsable_purchase_date :
  monthsBetween (LocalDate 2024 2 1 0) InvalidDate = NaN /\
  nearestHorizon candidates (monthsBetween (LocalDate 2024 2 1 0) InvalidDate)
  = Num (Int 1).
Proof.
  apply (X2_unparsable_date_resolves_to_one_month
           (LocalDate 2024 2 1 0) InvalidDate).
  by right.
Defined.




End MonthDistance.

Section PurchaseSearch.
Import BuyerForecast.

Lemma horizon_param_nearest (m : Buyer.num) :
  exists h, h ∈ Buyer.candidates /\
            horizon_param (Buyer.nearestHorizon Buyer.candidates m) = Some h.
Proof.
  destruct (nearestHorizon_member Buyer.candidates m) as (h & Hin & ->);
    [done|].
  by exists h.
Qed.

(** X4: a search asks the backend at most once, and only for horizon
    1, 3 or 6, whatever the purchase date and the history are (dates
    that do not parse included).  When the history has no last row with
    a date, it asks nothing and fails with "No history available yet.". *)
Theorem X4_search_asks_for_a_supported_horizon
    (newDate : value -> Buyer.Date) (srv : server)
    (commodity buyDate : string) (history : list obj) :
  commodity <> "" -> buyDate <> "" ->
  (run_search newDate srv commodity buyDate history =
     Settled None (Throw (Error "No history available yet.")) /\
   forall p, last history = Some p -> truthy (get p "date") = false) \/
  (exists h p result,
     run_search newDate srv commodity buyDate history =
       Settled (Some h) result /\
     h ∈ [1; 3; 6]%Z /\
     last history = Some p /\ truthy (get p "date") = true /\
     forall e, Buyer.fetch_json (predict srv h) = Throw e ->
               result = Throw e).
Proof.
  intros Hc Hb. unfold run_search.
  apply String.eqb_neq in Hc, Hb. rewrite Hc, Hb. simpl.
  destruct (last history) as [p|] eqn:Hlast.
  - destruct (truthy (get p "date")) eqn:Hd; simpl.
    + destruct (horizon_param_nearest
                  (Buyer.monthsBetween (newDate (get p "date"))
                                       (newDate (VStr buyDate))))
        as (h & Hin & ->).
      right. eexists h, p, _. repeat split; try done.
      intros e He. by rewrite He.
    + left. split; [done|]. by intros q [= <-].
  - left. by split.
Qed.

(** X4 on a search made before any history has arrived. *)
Lemma X4_witness_empty_history :
  (run_search (fun _ => Buyer.InvalidDate) (refusing 3) "Rice" "2024-06-01" [] =
     Settled None (Throw (Error "No history available yet.")) /\
   forall p, last ([] : list obj) = Some p -> truthy (get p "date") = false) \/
  (exists h p result,
     run_search (fun _ => Buyer.InvalidDate) (refusing 3) "Rice" "2024-06-01" [] =
       Settled (Some h) result /\
     h ∈ [1; 3; 6]%Z /\
     last ([] : list obj) = Some p /\ truthy (get p "date") = true /\
     forall e, Buyer.fetch_json (predict (refusing 3) h) = Throw e ->
               result = Throw e).
Proof.
  apply (X4_search_asks_for_a_supported_horizon
           (fun _ => Buyer.InvalidDate) (refusing 3) "Rice" "2024-06-01" []);
    discriminate.
Defined.

(** The three ways a started search can settle. *)
Lemma run_search_shape
    (newDate : value -> Buyer.Date) (srv : server)
    (commodity buyDate : string) (history : list obj) :
  commodity <> "" -> buyDate <> "" ->
  run_search newDate srv commodity buyDate history =
    Settled None (Throw (Error "No history available yet.")) \/
  exists h lastDate lastPrice,
    (exists j,
       run_search newDate srv commodity buyDate history =
       Settled (Some h)
         (Return
            ({| Buyer.lk_date := lastDate; Buyer.price_sll := lastPrice |},
             {| target_date :=
                  or_else (kpi_future_date j (pretty h +:+ "m")) (VStr "");
                predicted_price := kpi_field j ("pred_" +:+ pretty h +:+ "m");
                last_known :=
                  {| Buyer.lk_date := lastDate; Buyer.price_sll := lastPrice |};
                path := [] |}))) \/
    (exists e,
       run_search newDate srv commodity buyDate history =
       Settled (Some h) (Throw e)).
Proof.
  intros Hc Hb. unfold run_search.
  apply String.eqb_neq in Hc, Hb. rewrite Hc, Hb. simpl.
  destruct (last history) as [p|]; [|by left].
  destruct (truthy (get p "date")); simpl; [|by left].
  destruct (horizon_param_nearest
              (Buyer.monthsBetween (newDate (get p "date"))
                                   (newDate (VStr buyDate))))
    as (h & Hin & ->).
  right. exists h, (get p "date"), (get p "price").
  destruct (Buyer.fetch_json (predict srv h)) as [j|e]; simpl.
  - left. by exists j.
  - right. by exists e.
Qed.

(** X5: what a started search leaves on screen.  With a commodity and
    a purchase date chosen, onSearch ends with loading off and, besides
    the history, commodity and date it did not touch, either an error
    and neither current price nor forecast, or no error and both of
    them, the forecast carrying that same current point as last_known,
    an empty path and a target date that is never null or undefined. *)
Theorem X5_search_shows_error_or_forecast
    (newDate : value -> Buyer.Date) (srv : server) (st : state) :
  commodity st <> "" -> buyDate st <> "" ->
  let st' := onSearch newDate srv st in
  loading st' = false /\
  history st' = history st /\
  commodity st' = commodity st /\
  buyDate st' = buyDate st /\
  ((exists msg, err st' = Some msg /\ current st' = None /\ forecast st' = None) \/
   (exists c f,
      err st' = None /\ current st' = Some c /\ forecast st' = Some f /\
      last_known f = c /\ path f = [] /\
      is_nullish (target_date f) = false)).
Proof.
  intros Hc Hb. unfold onSearch.
  destruct (run_search_shape newDate srv (commodity st) (buyDate st)
              (history st) Hc Hb)
    as [-> | (h & lastDate & lastPrice & [(j & ->) | (e & ->)])]; simpl.
  - repeat split; try done. left. by eexists.
  - repeat split; try done. right. eexists _, _. repeat split; try done.
    simpl. unfold or_else.
    destruct (truthy (kpi_future_date j (pretty h +:+ "m"))) eqn:Ht; [|done].
    by destruct (kpi_future_date j (pretty h +:+ "m")).
  - repeat split; try done. left. by eexists.
Qed.

(** X5 on a search three months ahead that the backend refuses. *)
Lemma X5_witness_refused_search :
  let st :=
    {| commodity := "Rice"; buyDate := "2024-06-01"; current := None;
       forecast := None; history := history_row <$> rice_history;
       loading := false; err := None |} in
  let st' := onSearch (fun _ => Buyer.LocalDate 2024 2 1 0) (refusing 1) st in
  loading st' = false /\
  history st' = history st /\
  commodity st' = commodity st /\
  buyDate st' = buyDate st /\
  ((exists msg, err st' = Some msg /\ current st' = None /\ forecast st' = None) \/
   (exists c f,
      err st' = None /\ current st' = Some c /\ forecast st' = Some f /\
      last_known f = c /\ path f = [] /\
      is_nullish (target_date f) = false)).
Proof.
  apply (X5_search_shows_error_or_forecast
           (fun _ => Buyer.LocalDate 2024 2 1 0) (refusing 1)
           {| commodity := "Rice"; buyDate := "2024-06-01"; current := None;
              forecast := None; history := history_row <$> rice_history;
              loading := false; err := None |});
    discriminate.
Defined.

(** X6: "Use this date" searches with the date that was in the field
    before the click.  handlePickDate stores the picked date, but the
    onSearch it schedules belongs to the render that built the handler:
    what ends up on screen besides the date field is what onSearch gives
    on the previous state, whichever date was picked; and when the field
    was empty, no search runs at all. *)
Theorem X6_pick_date_searches_previous_date
    (newDate : value -> Buyer.Date) (srv : server) (st : state)
    (dateStr : string) :
  let picked := handlePickDate newDate srv st dateStr in
  let searched := onSearch newDate srv st in
  buyDate picked = dateStr /\
  current picked = current searched /\
  forecast picked = forecast searched /\
  err picked = err searched /\
  loading picked = loading searched /\
  history picked = history st /\
  (buyDate st = "" ->
   picked =
   {| commodity := commodity st; buyDate := dateStr;
      current := current st; forecast := forecast st;
      history := history st; loading := loading st; err := err st |}).
Proof.
  unfold handlePickDate, onSearch.
  destruct (run_search newDate srv (commodity st) (buyDate st) (history st))
    as [|req [[c f]|e]] eqn:Hs; simpl; repeat split; try done.
  all: intros Hb; unfold run_search in Hs; rewrite Hb in Hs.
  all: by rewrite orb_true_r in Hs.
Qed.

(** X6 on the first click, the date field still empty. *)
Lemma X6_witness_first_click :
  handlePickDate (fun _ => Buyer.LocalDate 2024 2 1 0) (refusing 3)
    {| commodity := "Rice"; buyDate := ""; current := None;
       forecast := None; history := history_row <$> rice_history;
       loading := false; err := None |} "2024-09-01" =
  {| commodity := "Rice"; buyDate := "2024-09-01"; current := None;
     forecast := None; history := history_row <$> rice_history;
     loading := false; err := None |}.
Proof.
  exact (proj2 (proj2 (proj2 (proj2 (proj2 (proj2
           (X6_pick_date_searches_previous_date
              (fun _ => Buyer.LocalDate 2024 2 1 0) (refusing 3)
              {| commodity := "Rice"; buyDate := ""; current := None;
                 forecast := None; history := history_row <$> rice_history;
                 loading := false; err := None |} "2024-09-01"))))))
           eq_refl).
Defined.

(** X7: the chart of the purchase planner after a search.  When the
    search succeeds the series is the observed rows, in order, followed
    by exactly one forecast row, whose band collapses on the forecast
    ([lo = hi = forecast = predicted_price]); when it fails the series is
    the observed rows alone. *)
Theorem X7_series_after_search
    (newDate : value -> Buyer.Date) (srv : server) (st : state) :
  commodity st <> "" -> buyDate st <> "" ->
  let st' := onSearch newDate srv st in
  (err st' = None ->
   exists f,
     forecast st' = Some f /\
     chart_series (history st') (forecast st') =
       (observed_row <$> history st) ++ [target_row f] /\
     get (target_row f) "date" = target_date f /\
     get (target_row f) "forecast" = predicted_price f /\
     get (target_row f) "lo" = predicted_price f /\
     get (target_row f) "hi" = predicted_price f) /\
  (err st' <> None ->
   chart_series (history st') (forecast st') = observed_row <$> history st).
Proof.
  intros Hc Hb. unfold onSearch.
  destruct (run_search_shape newDate srv (commodity st) (buyDate st)
              (history st) Hc Hb)
    as [-> | (h & lastDate & lastPrice & [(j & ->) | (e & ->)])]; simpl.
  - split; [done|]. intros _. unfold chart_series. simpl.
    by rewrite app_nil_r.
  - split; [|done]. intros _. eexists. split; [done|].
    unfold chart_series. simpl. split; [done|].
    unfold target_row, get. simpl.
    repeat split;
      repeat (rewrite lookup_insert_ne by done); by rewrite lookup_insert_eq.
  - split; [done|]. intros _. unfold chart_series. simpl.
    by rewrite app_nil_r.
Qed.

(** X7 on a refused search: the observations alone. *)
Lemma X7_witness_refused_search :
  let st :=
    {| commodity := "Rice"; buyDate := "2024-06-01"; current := None;
       forecast := None; history := history_row <$> rice_history;
       loading := false; err := None |} in
  let st' := onSearch (fun _ => Buyer.LocalDate 2024 2 1 0) (refusing 1) st in
  chart_series (history st') (forecast st') = observed_row <$> history st.
Proof.
  refine (proj2 (X7_series_after_search
            (fun _ => Buyer.LocalDate 2024 2 1 0) (refusing 1)
            {| commodity := "Rice"; buyDate := "2024-06-01"; current := None;
               forecast := None; history := history_row <$> rice_history;
               loading := false; err := None |}
            ltac:(discriminate) ltac:(discriminate)) _).
  vm_compute. discriminate.
Defined.

(** X8: the history the search reads.  A history request that fails
    in any way, or settles after the component is gone, leaves the
    history shown as it was; one that succeeds gives one row per point,
    in order, and a search accepted after it shows as current price the
    date and the [y] of the last point. *)
Theorem X8_history_feeds_search
    (newDate : value -> Buyer.Date) (srv : server) (st : state)
    (alive : bool) :
  ((exists e, Buyer.fetch_json (series srv) = Throw e) \/ alive = false ->
   loadHistory srv alive (history st) = history st) /\
  (forall j pts p,
     Buyer.fetch_json (series srv) = Return j ->
     points j = Some pts ->
     loadHistory srv true (history st) = history_row <$> pts /\
     (last pts = Some p -> commodity st <> "" -> buyDate st <> "" ->
      forall c,
        current
          (onSearch newDate srv
             {| commodity := commodity st; buyDate := buyDate st;
                current := current st; forecast := forecast st;
                history := loadHistory srv true (history st);
                loading := loading st; err := err st |}) = Some c ->
        c = {| Buyer.lk_date := get p "date"; Buyer.price_sll := get p "y" |})).
Proof.
  split.
  - unfold loadHistory. intros [[e ->]| ->]; [done|].
    by destruct (Buyer.fetch_json (series srv)).
  - intros j pts p Hj Hpts.
    assert (Hload : loadHistory srv true (history st) = history_row <$> pts).
    { unfold loadHistory. rewrite Hj. simpl. by rewrite Hpts. }
    split; [done|]. intros Hlast Hc Hb c.
    rewrite Hload. unfold onSearch, run_search. simpl.
    apply String.eqb_neq in Hc, Hb. rewrite Hc, Hb. simpl.
    rewrite fmap_last, Hlast. simpl.
    replace (get (history_row p) "date") with (get p "date")
      by (unfold history_row, get;
          by rewrite lookup_insert_ne, lookup_insert_eq).
    replace (get (history_row p) "price") with (get p "y")
      by (unfold history_row, get; by rewrite lookup_insert_eq).
    destruct (truthy (get p "date")); simpl; [|done].
    destruct (horizon_param _) as [h|]; [|done].
    destruct (Buyer.fetch_json (predict srv h)); simpl; [|done].
    by intros [= <-].
Qed.

(** X8 when the component is gone before the history arrives. *)
Lemma X8_witness_unmounted :
  loadHistory (refusing 3) false (history_row <$> rice_history) =
  history_row <$> rice_history.
Proof.
  exact (proj1 (X8_history_feeds_search
                  (fun _ => Buyer.InvalidDate) (refusing 3)
                  {| commodity := "Rice"; buyDate := ""; current := None;
                     forecast := None;
                     history := history_row <$> rice_history;
                     loading := false; err := None |} false)
           (or_intror eq_refl)).
Defined.

End PurchaseSearch.

Section QuickCards.
Import Buyer.

(** X9: QuickHorizons replaces its cards exactly when all four requests
    succeed.  With a commodity chosen and the component mounted, the run
    ends without error if and only if /series and the /predict of 1, 3
    and 6 all succeed; the cards are then those three horizons in that
    order, each with a target date that is never null or undefined and
    no band, and meta holds the last point of the series.  A run that
    settles after the component is gone writes neither rows, meta nor
    error. *)
Theorem X9_cards_iff_all_requests_succeed (commodity : string) (srv : server)
    (st : qh_state) :
  commodity <> "" ->
  let st' := go commodity srv true st in
  (err st' = None <->
   (exists jj, fetch_json (series srv) = Return jj) /\
   forall x, x ∈ [1; 3; 6]%Z -> request_succeeds srv x) /\
  (err st' = None ->
   h <$> rows st' = [1; 3; 6]%Z /\
   Forall (fun r => is_nullish (target_date r) = false /\
                    lo r = VUndef /\ hi r = VUndef) (rows st') /\
   loading st' = false /\
   exists jj, fetch_json (series srv) = Return jj /\
              meta st' = Some (lastKnown_of jj)) /\
  rows (go commodity srv false st) = rows st /\
  meta (go commodity srv false st) = meta st /\
  err (go commodity srv false st) = None.
Proof.
  intros Hc st'. unfold st', go, quickHorizons, request_succeeds.
  apply String.eqb_neq in Hc. rewrite Hc.
  assert (Hdate : forall x pj, is_nullish (target_date (qrow_of x pj)) = false).
  { intros x pj. unfold qrow_of, or_else. simpl.
    destruct (truthy (kpi_future_date pj (pretty x +:+ "m"))) eqn:Ht; [|done].
    by destruct (kpi_future_date pj (pretty x +:+ "m")). }
  destruct (fetch_json (series srv)) as [jj|e0] eqn:H0; simpl.
  - destruct (fetch_json (predict srv 1)) as [p1|e1] eqn:H1; simpl.
    + destruct (fetch_json (predict srv 3)) as [p3|e3] eqn:H3; simpl.
      * destruct (fetch_json (predict srv 6)) as [p6|e6] eqn:H6; simpl.
        -- split; [|split; [|done]].
           ++ split; [|done]. intros _. split; [by exists jj|].
              intros x [ -> | [ -> | -> ] ]%horizon_cases; by eexists.
           ++ intros _. split; [done|]. split; [|split; [done|by exists jj]].
              repeat constructor; apply Hdate.
        -- split; [|done]. split; [done|].
           intros (_ & Hall). destruct (Hall 6%Z) as [pj Hpj];
             [by apply horizon_cases; right; right|congruence].
      * split; [|done]. split; [done|].
        intros (_ & Hall). destruct (Hall 3%Z) as [pj Hpj];
          [by apply horizon_cases; right; left|congruence].
    + split; [|done]. split; [done|].
      intros (_ & Hall). destruct (Hall 1%Z) as [pj Hpj];
        [by apply horizon_cases; left|congruence].
  - split; [|done]. split; [done|]. by intros ([jj' ?] & _).
Qed.

(** X9 when horizon 3 is refused: an error, so not all succeeded. *)
Lemma X9_witness_refused_horizon :
  err (go "Rice" (refusing 3) true qh_initial) = None <->
  (exists jj, fetch_json (series (refusing 3)) = Return jj) /\
  forall x, x ∈ [1; 3; 6]%Z -> request_succeeds (refusing 3) x.
Proof.
  refine (proj1 (X9_cards_iff_all_requests_succeed
                   "Rice" (refusing 3) qh_initial _)).
  discriminate.
Defined.

Lemma finite_not_nan (f : float) :
  PrimFloat.is_finite f = true -> PrimFloat.is_nan f = false.
Proof.
  unfold PrimFloat.is_finite. by destruct (PrimFloat.is_nan f).
Qed.

(** X10: the percentage of a QuickHorizons card is the pctChange of the
    planner.  On prices as JSON delivers them (a finite number, null, or
    nothing) the card's [delta] of a predicted price against the last
    known price is defined and equals [pctChange(predicted, lastPrice)]:
    null without a last price, without a prediction or on a last price
    of 0, the same quotient otherwise. *)
Theorem X10_delta_is_pctChange (lastPrice predicted : value) :
  json_price lastPrice -> json_price predicted ->
  delta lastPrice predicted = Some (Planner.pctChange predicted lastPrice).
Proof.
  unfold delta, Planner.pctChange.
  destruct lastPrice as [| | |l|]; try done;
    destruct predicted as [| | |q|]; try done; simpl;
    intros Hl Hq; rewrite ?Hl, ?Hq, ?andb_false_r; simpl; try done.
  rewrite (finite_not_nan l Hl). simpl.
  unfold PrimFloat.is_zero.
  change PrimFloat.zero with 0%float.
  by destruct (PrimFloat.eqb l 0).
Qed.

(** X10 on the scenario of the spec. *)
Lemma X10_witness_102_over_98 :
  delta (VNum 98) (VNum 102) = Some (Planner.pctChange (VNum 102) (VNum 98)).
Proof.
  apply (X10_delta_is_pctChange (VNum 98) (VNum 102)); reflexivity.
Defined.

End QuickCards.

Section DashboardData.
Import Dashboard.





(** Every suspended run carries an id that was issued. *)
Lemma step_pending_bounded (s : state) (ev : event) :
  (forall id ph, pending s !! id = Some ph -> (1 <= id <= latestReq s)%nat) ->
  forall id ph, pending (step s ev) !! id = Some ph ->
                (1 <= id <= latestReq (step s ev))%nat.
Proof.
  intros Hinv id ph.
  destruct ev as [c r|reqId r1|reqId h]; simpl.
  - destruct (_ || _); simpl; [apply Hinv|].
    intros [[<- _]|[_ Hid]]%lookup_insert_Some; [lia|].
    specialize (Hinv _ _ Hid). lia.
  - destruct (pending s !! reqId) as [[|]|] eqn:Hr; try apply Hinv.
    destruct (negb _); simpl.
    + intros [_ Hid]%lookup_delete_Some. by apply (Hinv _ _ Hid).
    + intros [[<- _]|[_ Hid]]%lookup_insert_Some;
        [by apply (Hinv _ _ Hr)|by apply (Hinv _ _ Hid)].
  - destruct (pending s !! reqId) as [[|]|] eqn:Hr; try apply Hinv.
    destruct (negb _); simpl;
      intros [_ Hid]%lookup_delete_Some; by apply (Hinv _ _ Hid).
Qed.

(** X12: the bookkeeping of the selection effect.  After any sequence
    of events every suspended run has an id between 1 and the latest
    counter, so the id the next selection issues is not in use; and a
    run that finds itself superseded when its /predict settles is over:
    it never asks for /series. *)
Theorem X12_request_ids_are_fresh (evs : list event) (reqId : nat) (ph : phase) :
  pending (run initial evs) !! reqId = Some ph ->
  (1 <= reqId <= latestReq (run initial evs))%nat /\
  pending (run initial evs) !! S (latestReq (run initial evs)) = None /\
  (forall r1,
     ph = AwaitPredict -> reqId <> latestReq (run initial evs) ->
     pending (step (run initial evs) (PredictSettled reqId r1)) !! reqId = None).
Proof.
  assert (Hinv : forall evs id ph,
             pending (run initial evs) !! id = Some ph ->
             (1 <= id <= latestReq (run initial evs))%nat).
  { clear. intros evs. induction evs as [|ev evs IH] using rev_ind.
    - intros id ph Hid. simpl in Hid. by rewrite lookup_empty in Hid.
    - rewrite run_app. simpl. by apply step_pending_bounded. }
  intros Hp. split; [by eapply Hinv|]. split.
  - destruct (pending (run initial evs) !! S (latestReq (run initial evs)))
      as [ph'|] eqn:Hn; [|done].
    apply Hinv in Hn. lia.
  - intros r1 -> Hne. simpl. rewrite Hp.
    apply Nat.eqb_neq in Hne. rewrite Hne. simpl. apply lookup_delete_eq.
Qed.

(** X12 on Rice then Fish: the run for Rice is still suspended. *)
Lemma X12_witness_rice_then_fish :
  (1 <= 1 <= latestReq (run initial [Select "Rice" "All"; Select "Fish" "All"]))%nat /\
  pending (run initial [Select "Rice" "All"; Select "Fish" "All"])
    !! S (latestReq (run initial [Select "Rice" "All"; Select "Fish" "All"]))
  = None /\
  (forall r1,
     AwaitPredict = AwaitPredict ->
     1%nat <> latestReq (run initial [Select "Rice" "All"; Select "Fish" "All"]) ->
     pending (step (run initial [Select "Rice" "All"; Select "Fish" "All"])
                   (PredictSettled 1 r1)) !! 1%nat = None).
Proof.
  apply (X12_request_ids_are_fresh
           [Select "Rice" "All"; Select "Fish" "All"] 1 AwaitPredict).
  by vm_compute.
Defined.

(** X13: the two requests of a selection are applied independently.
    For the run of the latest selection, whatever /predict gives, the
    answer of /series is applied: a failed /predict blanks the KPIs and
    the history is still shown, the current price card then falling back
    on the [y] of the last history point; a failed /series empties the
    history and leaves the KPIs of /predict in place. *)
Theorem X13_forecast_and_history_are_independent (s : state)
    (commodity region : string) (r1 : outcome predict_json)
    (hist : outcome series_json) :
  commodity <> "" -> region <> "" ->
  let s1 := step s (Select commodity region) in
  let reqId := latestReq s1 in
  let s3 := run s1 [PredictSettled reqId r1; SeriesSettled reqId hist] in
  kpi s3 = match r1 with
           | Return r => kpi_of r
           | Throw _ => null_kpi
           end /\
  history s3 = match hist with
               | Return h => default [] (points h)
               | Throw _ => []
               end /\
  pending s3 !! reqId = None /\
  latestReq s3 = reqId /\
  (forall e, r1 = Throw e ->
     currentPrice (kpi s3) (history s3) =
     match last (history s3) with
     | Some current => nullish (get current "y") VNull
     | None => VNull
     end).
Proof.
  intros Hc Hr s1 reqId s3.
  unfold s3, reqId, s1. rewrite step_select by done. simpl.
  rewrite lookup_insert_eq, Nat.eqb_refl. simpl.
  rewrite lookup_insert_eq, Nat.eqb_refl. simpl.
  repeat split; try done.
  - apply lookup_delete_eq.
  - by intros e ->.
Qed.

(** X13 on a selection whose /predict fails and whose /series answers. *)
Lemma X13_witness_failed_forecast :
  let s1 := step initial (Select "Rice" "All") in
  let reqId := latestReq s1 in
  let s3 := run s1 [PredictSettled reqId (Throw (Error "500 Internal Server Error"));
                    SeriesSettled reqId (Return (SeriesJson (Some rice_history)))] in
  kpi s3 = null_kpi /\
  history s3 = rice_history /\
  pending s3 !! reqId = None /\
  latestReq s3 = reqId /\
  (forall e, Throw (A := predict_json) (Error "500 Internal Server Error") = Throw e ->
     currentPrice (kpi s3) (history s3) =
     match last (history s3) with
     | Some current => nullish (get current "y") VNull
     | None => VNull
     end).
Proof.
  apply (X13_forecast_and_history_are_independent initial "Rice" "All"
           (Throw (Error "500 Internal Server Error"))
           (Return (SeriesJson (Some rice_history)))); discriminate.
Defined.

(** X14: the persisted toggles survive a save and a load.  With
    storage available, loading after saving gives back the toggles that
    were saved, whatever the storage and the toggles held before,
    provided the chart type is not the empty string (an empty one is
    not read back: the chart type held is kept); saving touches no key
    but its three; a storage that holds none of them switches both
    views off and keeps the chart type; and without access to storage
    neither effect does anything. *)
Theorem X14_preferences_round_trip (s : gmap string string) (p held : prefs) :
  chartType p <> "" ->
  loadPrefs (savePrefs (Some s) p) held = p /\
  (forall s', savePrefs (Some s) p = Some s' ->
     forall k, k <> "chartType" -> k <> "showMA" -> k <> "changeView" ->
               s' !! k = s !! k) /\
  loadPrefs (savePrefs (Some s) {| chartType := ""; showMA := showMA p;
                                   changeView := changeView p |}) held =
    {| chartType := chartType held; showMA := showMA p;
       changeView := changeView p |} /\
  loadPrefs (Some ∅) held =
    {| chartType := chartType held; showMA := false; changeView := false |} /\
  loadPrefs None held = held /\
  savePrefs None p = None.
Proof.
  intros Hct. destruct p as [ct ma cv]. simpl in Hct.
  cbn [showMA changeView chartType].
  assert (Hload : forall ct',
            loadPrefs (savePrefs (Some s) {| chartType := ct'; showMA := ma;
                                             changeView := cv |}) held =
            {| chartType := if String.eqb ct' "" then chartType held else ct';
               showMA := ma; changeView := cv |}).
  { intros ct'. unfold loadPrefs, savePrefs. simpl.
    rewrite lookup_insert_eq.
    rewrite (lookup_insert_ne _ "changeView" "showMA") by done.
    rewrite lookup_insert_eq.
    rewrite (lookup_insert_ne _ "changeView" "chartType") by done.
    rewrite (lookup_insert_ne _ "showMA" "chartType") by done.
    rewrite lookup_insert_eq.
    f_equal; [by destruct ma|by destruct cv]. }
  split; [|split; [|split; [|done]]].
  - rewrite Hload. apply String.eqb_neq in Hct. by rewrite Hct.
  - intros s' [= <-] k H1 H2 H3. by rewrite !lookup_insert_ne.
  - by rewrite Hload.
Qed.

(** X14 on the line chart with the moving average on. *)
Lemma X14_witness_line_with_average :
  loadPrefs (savePrefs (Some ∅) {| chartType := "line"; showMA := true;
                                   changeView := false |}) default_prefs
  = {| chartType := "line"; showMA := true; changeView := false |}.
Proof.
  refine (proj1 (X14_preferences_round_trip ∅
                   {| chartType := "line"; showMA := true;
                      changeView := false |} default_prefs _)).
  discriminate.
Defined.

End DashboardData.

Section PlannerLoad.
Import Planner.

(** A request of the loop that throws (a rejected fetch, or an accepted
    answer whose body does not parse) ends the loop, wherever it is. *)
Lemma forecast_loop_throws (srv : server) (hs : list Z)
    (out : gmap string (list obj)) (hf : Z) (e : error) :
  hf ∈ hs ->
  predict srv hf = Throw e \/
  (exists r, predict srv hf = Return r /\ ok r = true /\ json r = Throw e) ->
  exists e', forecast_loop srv hs out = Throw e'.
Proof.
  intros Hin Hbad. revert out.
  induction hs as [|x hs IH]; intros out; [by apply elem_of_nil in Hin|].
  simpl.
  destruct (decide (x = hf)) as [->|Hne].
  - destruct Hbad as [->|(r & -> & Hok & Hj)]; simpl; [by eexists|].
    rewrite Hok, Hj. simpl. by eexists.
  - apply elem_of_cons in Hin as [->|Hin]; [done|].
    destruct (predict srv x) as [rx|ex]; simpl; [|by eexists].
    destruct (ok rx); simpl; [|by apply IH].
    destruct (json rx); simpl; [by apply IH|by eexists].
Qed.

(** When every request is answered, refused or not, and every accepted
    body parses, the loop runs to its end. *)
Lemma forecast_loop_returns (srv : server) (hs : list Z)
    (out : gmap string (list obj)) :
  (forall x, x ∈ hs ->
     exists r, predict srv x = Return r /\
               (ok r = true -> exists j, json r = Return j)) ->
  exists out', forecast_loop srv hs out = Return out'.
Proof.
  revert out. induction hs as [|x hs IH]; intros out Hall; simpl.
  - by eexists.
  - destruct (Hall x) as (r & -> & Hj); [by left|]. simpl.
    assert (Hrest : forall y, y ∈ hs ->
              exists r, predict srv y = Return r /\
                        (ok r = true -> exists j, json r = Return j)).
    { intros y Hy. apply Hall. by right. }
    destruct (ok r); simpl; [|by apply IH].
    destruct Hj as [j ->]; [done|]. simpl. by apply IH.
Qed.

Lemma load_try_after_series (srv : server) (histResp : response series_json)
    (histData : series_json) :
  series srv = Return histResp -> ok histResp = true ->
  json histResp = Return histData ->
  load_try srv =
  match forecast_loop srv [1; 3; 6]%Z ∅ with
  | Return out => Return (default [] (points histData), out)
  | Throw e => Throw e
  end.
Proof.
  intros Hs Hok Hj. unfold load_try. rewrite Hs.
  cbn [mbind outcome_bind]. rewrite Hok. cbn [negb].
  rewrite Hj. reflexivity.
Qed.

(** X15: in the planner a refused horizon and a broken one are not
    treated alike.  If the request of any horizon is rejected, or is
    accepted with a body that does not parse, the load ends with an
    empty history and an empty bundle, although /series had answered;
    if every request is answered and every accepted body parses, the
    history is the points of /series, whichever horizons were refused. *)
Theorem X15_broken_horizon_discards_history (srv : server)
    (histResp : response series_json) (histData : series_json) :
  series srv = Return histResp -> ok histResp = true ->
  json histResp = Return histData ->
  (forall hf e,
     hf ∈ [1; 3; 6]%Z ->
     predict srv hf = Throw e \/
     (exists r, predict srv hf = Return r /\ ok r = true /\ json r = Throw e) ->
     load srv = {| hist := []; bundle := empty_bundle; loading := false |}) /\
  ((forall x, x ∈ [1; 3; 6]%Z ->
      exists r, predict srv x = Return r /\
                (ok r = true -> exists j, json r = Return j)) ->
   hist (load srv) = default [] (points histData) /\
   loading (load srv) = false).
Proof.
  intros Hs Hok Hj. unfold load.
  rewrite (load_try_after_series srv histResp histData Hs Hok Hj). split.
  - intros hf e Hin Hbad.
    destruct (forecast_loop_throws srv [1; 3; 6]%Z ∅ hf e Hin Hbad) as [e' He].
    by rewrite He.
  - intros Hall.
    destruct (forecast_loop_returns srv [1; 3; 6]%Z ∅ Hall) as [out Hout].
    by rewrite Hout.
Qed.

(** X15 on a backend that refuses horizon 3 and answers the rest. *)
Lemma X15_witness_refused_keeps_history :
  hist (load (refusing 3)) = default [] (points (SeriesJson (Some rice_history))) /\
  loading (load (refusing 3)) = false.
Proof.
  refine (proj2 (X15_broken_horizon_discards_history (refusing 3)
                   (Response true 200 (Return (SeriesJson (Some rice_history))))
                   (SeriesJson (Some rice_history)) eq_refl eq_refl eq_refl) _).
  intros x Hx. unfold refusing. simpl.
  destruct (x =? 3)%Z; eexists; (split; [reflexivity|]); by eexists.
Defined.

(** X16: the planner's chart shows the 6-month forecast and no other.
    After a load that ran to its end, the merged series is the history
    rows followed, when horizon 6 was accepted, by one row with the date
    and the price predicted for 6 months, and by nothing when horizon 6
    was refused, whatever horizons 1 and 3 gave. *)
Theorem X16_chart_shows_six_month_forecast_only (srv : server)
    (points : list obj) (out : gmap string (list obj))
    (r6 : response predict_json) :
  load_try srv = Return (points, out) ->
  predict srv 6 = Return r6 ->
  hist (load srv) = points /\
  (ok r6 = false ->
   chartData (hist (load srv)) (bundle (load srv)) = histRow <$> points) /\
  (forall j, ok r6 = true -> json r6 = Return j ->
     columns (chartData (hist (load srv)) (bundle (load srv))) =
     ((fun p => (get p "date", get p "y", VUndef)) <$> points) ++
     [(kpi_future_date j "6m", VUndef, kpi_field j "pred_6m")]).
Proof.
  intros Htry H6. unfold load. rewrite Htry. simpl.
  assert (Hloop : forecast_loop srv [1; 3; 6]%Z ∅ = Return out).
  { destruct (series srv) as [hr|] eqn:Hs; [|by unfold load_try in Htry; rewrite Hs in Htry].
    destruct (ok hr) eqn:Hok;
      [|by unfold load_try in Htry; rewrite Hs in Htry; simpl in Htry;
           rewrite Hok in Htry].
    destruct (json hr) as [hd|] eqn:Hj;
      [|by unfold load_try in Htry; rewrite Hs in Htry; simpl in Htry;
           rewrite Hok, Hj in Htry].
    rewrite (load_try_after_series srv hr hd Hs Hok Hj) in Htry.
    destruct (forecast_loop srv [1; 3; 6]%Z ∅); by simplify_eq. }
  split; [done|]. split.
  - intros Hok.
    pose proof (forecast_loop_skips srv _ ∅ out 6 r6 H6 Hok Hloop) as Hnone.
    change (pretty 6%Z) with "6" in Hnone.
    unfold chartData. rewrite Hnone, lookup_empty. simpl.
    by rewrite app_nil_r.
  - intros j Hok Hj.
    assert (Hsome :
              out !! "6" =
              Some [bundle_entry (kpi_future_date j "6m")
                                 (kpi_field j "pred_6m")]).
    { apply (forecast_loop_stores srv [1; 3; 6]%Z ∅ out 6 r6 j H6 Hok Hj Hloop).
      left. apply horizon_cases. by right; right. }
    rewrite planner_chartData_columns, Hsome. simpl.
    by f_equal.
Qed.

(** X16 on a backend that refuses horizon 3 only. *)
Lemma X16_witness_six_accepted :
  hist (load (refusing 3)) = rice_history /\
  (ok (Response (J := predict_json) true 200 (Return rice_predict_json)) = false ->
   chartData (hist (load (refusing 3))) (bundle (load (refusing 3))) =
   histRow <$> rice_history) /\
  (forall j,
     ok (Response (J := predict_json) true 200 (Return rice_predict_json)) = true ->
     json (Response true 200 (Return rice_predict_json)) = Return j ->
     columns (chartData (hist (load (refusing 3))) (bundle (load (refusing 3)))) =
     ((fun p => (get p "date", get p "y", VUndef)) <$> rice_history) ++
     [(kpi_future_date j "6m", VUndef, kpi_field j "pred_6m")]).
Proof.
  refine (X16_chart_shows_six_month_forecast_only (refusing 3) rice_history
            (<["6" := [bundle_entry (VStr "2024-09") (VNum 110)]]>
               (<["1" := [bundle_entry (VStr "2024-04") (VNum 102)]]> ∅))
            (Response true 200 (Return rice_predict_json)) _ eq_refl).
  reflexivity.
Defined.

(** X17: the percentages of the planner's headline cards after a load
    that ran to its end.  The card of a refused horizon has no
    percentage; the card of an accepted horizon has the pctChange of its
    predicted price against the [y] of the last history point; and with
    an empty history no card has one. *)
Theorem X17_headline_percentages (srv : server) (points : list obj)
    (out : gmap string (list obj)) (x : Z) (r : response predict_json) :
  load_try srv = Return (points, out) ->
  x ∈ [1; 3; 6]%Z ->
  predict srv x = Return r ->
  (ok r = false -> headline_pct points out (pretty x) = VNull) /\
  (forall j, ok r = true -> json r = Return j ->
     headline_pct points out (pretty x) =
     pctChange (kpi_field j ("pred_" +:+ pretty x +:+ "m"))
               (currentPrice points)) /\
  (points = [] -> headline_pct points out (pretty x) = VNull).
Proof.
  intros Htry Hin Hr.
  assert (Hloop : forecast_loop srv [1; 3; 6]%Z ∅ = Return out).
  { destruct (series srv) as [hr|] eqn:Hs; [|by unfold load_try in Htry; rewrite Hs in Htry].
    destruct (ok hr) eqn:Hok;
      [|by unfold load_try in Htry; rewrite Hs in Htry; simpl in Htry;
           rewrite Hok in Htry].
    destruct (json hr) as [hd|] eqn:Hj;
      [|by unfold load_try in Htry; rewrite Hs in Htry; simpl in Htry;
           rewrite Hok, Hj in Htry].
    rewrite (load_try_after_series srv hr hd Hs Hok Hj) in Htry.
    destruct (forecast_loop srv [1; 3; 6]%Z ∅); by simplify_eq. }
  unfold headline_pct, next_yhat. split; [|split].
  - intros Hok.
    rewrite (forecast_loop_skips srv _ ∅ out x r Hr Hok Hloop), lookup_empty.
    done.
  - intros j Hok Hj.
    rewrite (forecast_loop_stores srv [1; 3; 6]%Z ∅ out x r j Hr Hok Hj Hloop)
      by by left.
    simpl. f_equal.
  - intros ->. unfold pctChange. simpl. by rewrite andb_false_r.
Qed.

(** X17 on the refused horizon of a backend that refuses horizon 3. *)
Lemma X17_witness_refused_card :
  headline_pct rice_history
    (<["6" := [bundle_entry (VStr "2024-09") (VNum 110)]]>
       (<["1" := [bundle_entry (VStr "2024-04") (VNum 102)]]> ∅))
    (pretty 3%Z) = VNull.
Proof.
  refine (proj1 (X17_headline_percentages (refusing 3) rice_history
                   (<["6" := [bundle_entry (VStr "2024-09") (VNum 110)]]>
                      (<["1" := [bundle_entry (VStr "2024-04") (VNum 102)]]> ∅))
                   3 (Response false 500 (Return rice_predict_json))
                   _ _ eq_refl) eq_refl).
  - reflexivity.
  - apply horizon_cases. by right; left.
Defined.

(** X18: the tick interval of the charts.  For a series of [n] rows
    the interval is [n / 8] rounded down, never negative, 0 for an empty
    series; showing one row in every [interval + 1] therefore shows at
    most 8 of them. *)
Theorem X18_at_most_eight_ticks (n : nat) :
  (0 <= xInterval n)%Z /\
  xInterval n = (Z.of_nat n / 8)%Z /\
  (Z.of_nat n < 8 * (xInterval n + 1))%Z /\
  ((Z.of_nat n + xInterval n) / (xInterval n + 1) <= 8)%Z.
Proof.
  assert (Hk : xInterval n = (Z.of_nat n / 8)%Z).
  { unfold xInterval.
    destruct (decide (n = 0)%nat) as [->|Hn]; [done|].
    rewrite (Z.max_l (Z.of_nat n) 1) by lia.
    apply Z.max_r. apply Z.div_pos; lia. }
  rewrite Hk.
  assert (H0 : (0 <= Z.of_nat n / 8)%Z) by (apply Z.div_pos; lia).
  assert (Hlt : (Z.of_nat n < 8 * (Z.of_nat n / 8 + 1))%Z).
  { pose proof (Z.mul_succ_div_gt (Z.of_nat n) 8). lia. }
  repeat split; try done.
  assert (Hdiv : ((Z.of_nat n + Z.of_nat n / 8) / (Z.of_nat n / 8 + 1) < 9)%Z).
  { apply Z.div_lt_upper_bound; lia. }
  lia.
Qed.

End PlannerLoad.

Section EnrichedMergedSeries.

Lemma enriched_row_ma3 (chart : list obj) (changeView : bool) (i : nat)
    (d : obj) :
  enriched_row chart true changeView i d !! "ma3" = Some (ma3_spec chart i).
Proof.
  unfold enriched_row.
  destruct changeView, i as [|j]; simpl; try destruct (chart !! j);
    by rewrite ?(lookup_insert_ne _ "mom" "ma3"), ?lookup_insert_eq.
Qed.

Lemma enriched_row_mom (chart : list obj) (showMA : bool) (i : nat)
    (p d : obj) :
  chart !! i = Some p ->
  enriched_row chart showMA true (S i) d !! "mom" = Some (mom_spec p d).
Proof.
  intros Hp. unfold enriched_row. rewrite Hp. by rewrite lookup_insert_eq.
Qed.

(** A window without a finite actual value has no average. *)
Lemma ma3_spec_no_actual (rows : list obj) (i : nat) :
  (forall j d, (i - 2 <= j <= i)%nat -> rows !! j = Some d ->
               Number_isFinite (get d "actual") = false) ->
  ma3_spec rows i = VNull.
Proof.
  intros Hnone. unfold ma3_spec.
  assert (Hw : forall idx : list nat,
             Forall (fun j => (i - 2 <= j <= i)%nat) idx ->
             finite_floats
               (omap (fun j => (fun d => get d "actual") <$> rows !! j) idx) = []).
  { induction idx as [|j idx IH]; intros Hidx; [done|].
    apply Forall_cons in Hidx as [Hj Hidx]. csimpl.
    destruct (rows !! j) as [d|] eqn:Hd; csimpl; [|by apply IH].
    specialize (Hnone j d Hj Hd). unfold finite_floats in *. csimpl.
    destruct (get d "actual") as [| | |f|]; csimpl; try by apply IH.
    simpl in Hnone. rewrite Hnone. by apply IH. }
  unfold window3. rewrite Hw; [done|].
  destruct i as [|[|j]]; repeat constructor; lia.
Qed.

(** X19: where the moving average ends.  In the merged series, from
    the third forecast row on (row [i] with two forecast rows before
    it), [ma3] is null, in the planner and in the dashboard, whatever the
    history and the forecasts are: the average only ever reads observed
    values. *)
Theorem X19_average_ends_in_the_forecast (hist fore : list obj)
    (bundle : gmap string (list obj)) (changeView : bool) (i : nat) :
  bundle !! "6" = Some fore ->
  (length hist + 2 <= i)%nat ->
  (i < length hist + length fore)%nat ->
  (exists e,
     Planner.enrichedData (Planner.chartData hist bundle) true changeView !! i
     = Some e /\ e !! "ma3" = Some VNull) /\
  (exists e,
     Dashboard.enriched (Dashboard.chartData hist fore) true changeView !! i
     = Some e /\ e !! "ma3" = Some VNull).
Proof.
  intros H6 Hlo Hhi.
  assert (Hrows : forall (rows : list obj) (mk : obj -> obj) (mkf : obj -> obj),
             rows = (mk <$> hist) ++ (mkf <$> fore) ->
             (forall q, Number_isFinite (get (mkf q) "actual") = false) ->
             exists e, Planner.enrichedData rows true changeView !! i = Some e /\
                       e !! "ma3" = Some VNull).
  { intros rows mk mkf -> Hf.
    assert (Hlen : (i < length ((mk <$> hist) ++ (mkf <$> fore)))%nat)
      by (rewrite length_app, !length_fmap; lia).
    destruct (lookup_lt_is_Some_2 _ _ Hlen) as [d Hd].
    exists (enriched_row ((mk <$> hist) ++ (mkf <$> fore)) true changeView i d).
    split; [by rewrite enrichedData_lookup, Hd|].
    rewrite enriched_row_ma3. f_equal. apply ma3_spec_no_actual.
    intros j dj Hj Hdj.
    rewrite lookup_app_r in Hdj by (rewrite length_fmap; lia).
    apply list_lookup_fmap_Some in Hdj as (q & -> & _). apply Hf. }
  split.
  - apply (Hrows _ Planner.histRow Planner.foreRow).
    + unfold Planner.chartData. by rewrite H6.
    + intros q. by vm_compute.
  - rewrite dashboard_enriched.
    apply (Hrows _ Dashboard.histRow Dashboard.futRow); [done|].
    intros q. by vm_compute.
Qed.

(** X19 on the third of three forecast rows after one observation. *)
Lemma X19_witness_third_forecast_row :
  (exists e,
     Planner.enrichedData
       (Planner.chartData [point "2024-03" (VNum 98)]
          {[ "6" := [bundle_point "2024-04" (VNum 99) VNull VNull;
                     bundle_point "2024-05" (VNum 100) VNull VNull;
                     bundle_point "2024-06" (VNum 102) VNull VNull] ]})
       true false !! 3%nat = Some e /\ e !! "ma3" = Some VNull) /\
  (exists e,
     Dashboard.enriched
       (Dashboard.chartData [point "2024-03" (VNum 98)]
          [bundle_point "2024-04" (VNum 99) VNull VNull;
           bundle_point "2024-05" (VNum 100) VNull VNull;
           bundle_point "2024-06" (VNum 102) VNull VNull])
       true false !! 3%nat = Some e /\ e !! "ma3" = Some VNull).
Proof.
  apply (X19_average_ends_in_the_forecast [point "2024-03" (VNum 98)]
           [bundle_point "2024-04" (VNum 99) VNull VNull;
            bundle_point "2024-05" (VNum 100) VNull VNull;
            bundle_point "2024-06" (VNum 102) VNull VNull]).
  - apply lookup_singleton_eq.
  - simpl. lia.
  - simpl. lia.
Defined.

Lemma mom_spec_change (p c : obj) (a b : value) :
  number_of (shown p) = number_of a ->
  number_of (shown c) = number_of b ->
  mom_spec p c = change a b.
Proof.
  unfold mom_spec, change. intros Hp Hc.
  destruct (shown c) as [| | |y|], b as [| | |y'|]; simplify_eq/=; try done;
    destruct (shown p) as [| | |x|], a as [| | |x'|]; simplify_eq/=; done.
Qed.

(** Row by row, what a merged row shows is its point's price, as far as
    numbers go. *)
Lemma merged_rows_show_prices (hist fore : list obj)
    (mk mkf : obj -> obj) (py pf : obj -> value) (i : nat) (row : obj)
    (a : value) :
  (forall p, number_of (shown (mk p)) = number_of (py p)) ->
  (forall q, number_of (shown (mkf q)) = number_of (pf q)) ->
  ((mk <$> hist) ++ (mkf <$> fore)) !! i = Some row ->
  ((py <$> hist) ++ (pf <$> fore)) !! i = Some a ->
  number_of (shown row) = number_of a.
Proof.
  intros Hmk Hmkf Hrow Ha.
  destruct (decide (i < length hist)%nat) as [Hlt|Hge].
  - rewrite lookup_app_l in Hrow by by rewrite length_fmap.
    rewrite lookup_app_l in Ha by by rewrite length_fmap.
    apply list_lookup_fmap_Some in Hrow as (p & -> & Hp).
    apply list_lookup_fmap_Some in Ha as (p' & -> & Hp').
    by simplify_eq.
  - rewrite lookup_app_r in Hrow by (rewrite length_fmap; lia).
    rewrite lookup_app_r in Ha by (rewrite length_fmap; lia).
    rewrite length_fmap in Hrow. rewrite length_fmap in Ha.
    apply list_lookup_fmap_Some in Hrow as (q & -> & Hq).
    apply list_lookup_fmap_Some in Ha as (q' & -> & Hq').
    by simplify_eq.
Qed.

Lemma merged_rows_change (hist fore : list obj)
    (mk mkf : obj -> obj) (py pf : obj -> value) (showMA : bool) (i : nat)
    (a b : value) :
  (forall p, number_of (shown (mk p)) = number_of (py p)) ->
  (forall q, number_of (shown (mkf q)) = number_of (pf q)) ->
  ((py <$> hist) ++ (pf <$> fore)) !! i = Some a ->
  ((py <$> hist) ++ (pf <$> fore)) !! S i = Some b ->
  exists e,
    Planner.enrichedData ((mk <$> hist) ++ (mkf <$> fore)) showMA true !! S i
    = Some e /\
    e !! "mom" = Some (change a b).
Proof.
  intros Hmk Hmkf Ha Hb.
  assert (Hlen : length ((mk <$> hist) ++ (mkf <$> fore)) =
                 length ((py <$> hist) ++ (pf <$> fore)))
    by by rewrite !length_app, !length_fmap.
  destruct (lookup_lt_is_Some_2 ((mk <$> hist) ++ (mkf <$> fore)) i)
    as [p Hp]; [rewrite Hlen; by eapply lookup_lt_Some|].
  destruct (lookup_lt_is_Some_2 ((mk <$> hist) ++ (mkf <$> fore)) (S i))
    as [c Hc]; [rewrite Hlen; by eapply lookup_lt_Some|].
  exists (enriched_row ((mk <$> hist) ++ (mkf <$> fore)) showMA true (S i) c).
  split; [by rewrite enrichedData_lookup, Hc|].
  rewrite (enriched_row_mom _ _ _ p c Hp). f_equal.
  apply mom_spec_change;
    by eapply (merged_rows_show_prices hist fore mk mkf py pf).
Qed.

Lemma planner_histRow_shows (p : obj) :
  number_of (shown (Planner.histRow p)) = number_of (get p "y").
Proof.
  unfold shown.
  replace (get (Planner.histRow p) "actual") with (get p "y")
    by by vm_compute.
  replace (get (Planner.histRow p) "forecast") with VUndef by by vm_compute.
  by destruct (get p "y").
Qed.

Lemma planner_foreRow_shows (q : obj) :
  number_of (shown (Planner.foreRow q)) = number_of (get q "yhat").
Proof.
  unfold shown.
  replace (get (Planner.foreRow q) "actual") with VUndef by by vm_compute.
  replace (get (Planner.foreRow q) "forecast") with (get q "yhat")
    by by vm_compute.
  done.
Qed.

Lemma dashboard_histRow_shows (p : obj) :
  number_of (shown (Dashboard.histRow p)) = number_of (get p "y").
Proof.
  unfold shown.
  replace (get (Dashboard.histRow p) "actual") with (get p "y")
    by by vm_compute.
  replace (get (Dashboard.histRow p) "forecast") with VNull by by vm_compute.
  by destruct (get p "y").
Qed.

Lemma dashboard_futRow_shows (q : obj) :
  number_of (shown (Dashboard.futRow q)) = number_of (get q "forecast").
Proof.
  unfold shown.
  replace (get (Dashboard.futRow q) "actual") with VNull by by vm_compute.
  replace (get (Dashboard.futRow q) "forecast") with (get q "forecast")
    by by vm_compute.
  done.
Qed.

(** X20: the month-over-month series is the first difference of one
    price line.  In the merged series, the change of every row after
    the first is the difference between the price of its point and the
    price of the point before it, where the price of a history point is
    its [y] and the price of a forecast point is its forecast: within
    the history, across the boundary to the first forecast, and from
    forecast to forecast alike, and null wherever one of the two prices
    is not a finite number. *)
Theorem X20_change_is_first_difference (hist fore : list obj)
    (bundle : gmap string (list obj)) (showMA : bool) (i : nat) :
  bundle !! "6" = Some fore ->
  (forall a b,
     planner_prices hist fore !! i = Some a ->
     planner_prices hist fore !! S i = Some b ->
     exists e,
       Planner.enrichedData (Planner.chartData hist bundle) showMA true !! S i
       = Some e /\
       e !! "mom" = Some (change a b)) /\
  (forall a b,
     dashboard_prices hist fore !! i = Some a ->
     dashboard_prices hist fore !! S i = Some b ->
     exists e,
       Dashboard.enriched (Dashboard.chartData hist fore) showMA true !! S i
       = Some e /\
       e !! "mom" = Some (change a b)).
Proof.
  intros H6. split; intros a b Ha Hb.
  - unfold Planner.chartData. rewrite H6. simpl.
    apply (merged_rows_change hist fore Planner.histRow Planner.foreRow
             (fun p => get p "y") (fun q => get q "yhat"));
      [apply planner_histRow_shows|apply planner_foreRow_shows|done|done].
  - rewrite dashboard_enriched. unfold Dashboard.chartData. simpl.
    apply (merged_rows_change hist fore Dashboard.histRow Dashboard.futRow
             (fun p => get p "y") (fun q => get q "forecast"));
      [apply dashboard_histRow_shows|apply dashboard_futRow_shows|done|done].
Qed.

(** X20 across the boundary of the scenario of the spec: from the 98
    observed in March to the 102 forecast for April. *)
Lemma X20_witness_rice_boundary :
  exists e,
    Planner.enrichedData
      (Planner.chartData rice_history {[ "6" := rice_forecast ]}) false true
      !! 3%nat = Some e /\
    e !! "mom" = Some (change (VNum 98) (VNum 102)).
Proof.
  refine (proj1 (X20_change_is_first_difference rice_history rice_forecast
                   {[ "6" := rice_forecast ]} false 2 _)
            (VNum 98) (VNum 102) _ _).
  - apply lookup_singleton_eq.
  - by vm_compute.
  - by vm_compute.
Defined.

End EnrichedMergedSeries.

Section EvaluationTable.
Import ModelEval.

Lemma number_or_null_cases (v : value) :
  number_or_null v = VNull \/
  exists f, v = VNum f /\ number_or_null v = VNum f /\
            PrimFloat.is_finite f = true.
Proof.
  unfold number_or_null.
  destruct v as [| | |f|]; simpl; try by left.
  destruct (PrimFloat.is_finite f) eqn:Hf; [right; by exists f|by left].
Qed.

(** X21: the rows of the evaluation table.  There is one row per date,
    however long the arrays of actual and predicted values are.  In
    each row a value that is missing or not a finite number is null;
    the error is null exactly when the actual or the predicted value is
    null, and is [predicted - actual] otherwise, the absolute error
    being its absolute value and null when the error is; a model without
    predictions gives rows with their actual values and no predicted
    value or error; and an evaluation set that lacks its dates gives no
    row. *)
Theorem X21_evaluation_rows (ds ys : list value)
    (ps : gmap string (list value)) (model : string) (i : nat) (d : value) :
  ds !! i = Some d ->
  let table := rows (Some (EvalSet (Some ds) (Some ys) (Some ps))) model in
  length table = length ds /\
  (exists r,
     table !! i = Some r /\
     date r = d /\
     (actual r = VNull \/ Number_isFinite (actual r) = true) /\
     (predicted r = VNull \/ Number_isFinite (predicted r) = true) /\
     (error r = VNull <-> actual r = VNull \/ predicted r = VNull) /\
     (abs_error r = VNull <-> error r = VNull) /\
     (forall a p, actual r = VNum a -> predicted r = VNum p ->
                  error r = VNum (PrimFloat.sub p a) /\
                  abs_error r = VNum (PrimFloat.abs (PrimFloat.sub p a))) /\
     ((length ys <= i)%nat -> actual r = VNull) /\
     (ps !! model = None ->
      predicted r = VNull /\
      actual r = number_or_null (default VUndef (ys !! i)))) /\
  rows (Some (EvalSet None (Some ys) (Some ps))) model = [] /\
  rows None model = [].
Proof.
  intros Hd table. unfold table, rows. simpl.
  split; [by rewrite length_imap|]. split; [|done].
  exists (row_at ys (default [] (ps !! model)) i d).
  split; [by rewrite list_lookup_imap, Hd|].
  unfold row_at. simpl.
  destruct (number_or_null_cases (default VUndef (ys !! i)))
    as [Ha|(a & Hva & Ha & Hfa)];
    destruct (number_or_null_cases
                (default VUndef (default [] (ps !! model) !! i)))
      as [Hp|(p & Hvp & Hp & Hfp)];
    rewrite Ha, Hp; simpl; rewrite ?Hfa, ?Hfp.
  all: repeat split; try done; try tauto; try by left; try by right.
  all: try (intros [?|?]; done).
  all: try (intros Hlen; apply lookup_ge_None_2 in Hlen;
            rewrite Hlen in Hva; done).
  all: try (intros Hnone; rewrite Hnone in Hvp; done).
  all: try (by intros a' p' [= <-] [= <-]).
  all: try by simplify_eq.
  all: by match goal with
          | Hnone : _ !! _ = None |- _ => rewrite Hnone in Hvp
          end.
Qed.

(** X21 on a table whose model has one prediction fewer than dates. *)
Lemma X21_witness_short_predictions :
  let table :=
    rows (Some (EvalSet (Some [VStr "2024-01"; VStr "2024-02"])
                        (Some [VNum 100; VNum 105])
                        (Some {[ "XGBoost" := [VNum 101] ]}))) "XGBoost" in
  length table = 2%nat.
Proof.
  exact (proj1 (X21_evaluation_rows [VStr "2024-01"; VStr "2024-02"]
                  [VNum 100; VNum 105] {[ "XGBoost" := [VNum 101] ]}
                  "XGBoost" 1 (VStr "2024-02") eq_refl)).
Defined.

End EvaluationTable.

Section BundleLoad.
Import Planner.

(** X22: the load of CustomerPlanner.jsx is not all-or-nothing.  When
    the backend refuses /api/history and accepts /api/forecast_bundle,
    the forecasts are kept with an empty history: no headline card has
    a percentage and the chart is the 6-month forecast rows alone.  When
    either request is rejected, or accepted with a body that does not
    parse, history and bundle are both emptied. *)
Theorem X22_refused_history_keeps_forecasts (srv : bundle_server)
    (histResp : response history_json) (bundleResp : response bundle_json)
    (f : gmap string (list obj)) :
  history_request srv = Return histResp -> ok histResp = false ->
  bundle_request srv = Return bundleResp -> ok bundleResp = true ->
  json bundleResp = Return (BundleJson (Some f)) ->
  hist (load_bundle srv) = [] /\
  bundle (load_bundle srv) = f /\
  (forall key,
     headline_pct_last (hist (load_bundle srv)) (bundle (load_bundle srv)) key
     = VNull) /\
  chartData (hist (load_bundle srv)) (bundle (load_bundle srv)) =
    foreRow <$> default [] (f !! "6") /\
  (forall broken e,
     history_request broken = Throw e \/
     bundle_request broken = Throw e \/
     (exists r, history_request broken = Return r /\ ok r = true /\
                json r = Throw e) \/
     (exists r, bundle_request broken = Return r /\ ok r = true /\
                json r = Throw e) ->
     load_bundle broken =
     {| hist := []; bundle := empty_bundle; loading := false |}).
Proof.
  intros Hh Hhok Hb Hbok Hbj.
  assert (Hload : load_bundle srv =
                  {| hist := []; bundle := f; loading := false |}).
  { unfold load_bundle, json_or_null. rewrite Hh, Hb. simpl.
    rewrite Hhok, Hbok. simpl. by rewrite Hbj. }
  rewrite Hload. simpl. repeat split.
  - intros key. unfold headline_pct_last, pctChange. simpl.
    by rewrite andb_false_r.
  - intros broken e Hbroken. unfold load_bundle, json_or_null.
    destruct Hbroken as [->|[Hbr|[(r & -> & Hok & Hj)|(r & Hbr & Hok & Hj)]]];
      simpl; try done.
    + destruct (history_request broken) as [hr|]; simpl; [|done].
      destruct (ok hr); simpl; [|by rewrite Hbr].
      destruct (json hr); simpl; [|done]. by rewrite Hbr.
    + by rewrite Hok, Hj.
    + destruct (history_request broken) as [hr|]; simpl; [|done].
      destruct (ok hr); simpl; [|by rewrite Hbr; simpl; rewrite Hok, Hj].
      destruct (json hr); simpl; [|done].
      rewrite Hbr. simpl. by rewrite Hok, Hj.
Qed.

(** X22 on a backend without history for the commodity. *)
Lemma X22_witness_history_refused :
  hist (load_bundle
          {| history_request :=
               Return (Response false 404 (Throw (Error "no body")));
             bundle_request :=
               Return (Response true 200
                         (Return (BundleJson (Some {[ "6" := rice_forecast ]})))) |})
  = [].
Proof.
  refine (proj1 (X22_refused_history_keeps_forecasts
                   {| history_request :=
                        Return (Response false 404 (Throw (Error "no body")));
                      bundle_request :=
                        Return (Response true 200
                                  (Return (BundleJson
                                             (Some {[ "6" := rice_forecast ]})))) |}
                   (Response false 404 (Throw (Error "no body")))
                   (Response true 200
                      (Return (BundleJson (Some {[ "6" := rice_forecast ]}))))
                   {[ "6" := rice_forecast ]}
                   eq_refl eq_refl eq_refl eq_refl eq_refl)).
Defined.

End BundleLoad.

Section ApiSearch.
Import BuyerForecast.

(** X23: what the /api variant of the search shows when the backend
    refuses.  With a commodity and a date chosen, if /api/current or
    /api/buyer-forecast is refused and neither promise rejects with an
    error of its own, the message shown is "[object Response]",
    whatever the status and whichever request was refused, and neither
    current price nor forecast is shown, even if the other request
    succeeded. *)
Theorem X23_refused_search_shows_object_response (srv : api)
    (firstFails : bool) (st : state) :
  commodity st <> "" -> buyDate st <> "" ->
  (forall e, json_or_reject (current_request srv) <> Rejected (ThrownError e)) ->
  (forall e, json_or_reject (forecast_request srv) <> Rejected (ThrownError e)) ->
  (exists r, current_request srv = Return r /\ ok r = false) \/
  (exists r, forecast_request srv = Return r /\ ok r = false) ->
  err (onSearch_api srv firstFails st) = Some "[object Response]" /\
  current (onSearch_api srv firstFails st) = None /\
  forecast (onSearch_api srv firstFails st) = None /\
  loading (onSearch_api srv firstFails st) = false.
Proof.
  intros Hc Hb Hce Hfe Hrefused. unfold onSearch_api.
  apply String.eqb_neq in Hc, Hb. rewrite Hc, Hb. simpl.
  assert (Hrej : (exists s, json_or_reject (current_request srv)
                            = Rejected (ThrownResponse s)) \/
                 (exists s, json_or_reject (forecast_request srv)
                            = Rejected (ThrownResponse s))).
  { destruct Hrefused as [(r & Hr & Hok)|(r & Hr & Hok)]; [left|right];
      exists (status r); unfold json_or_reject; by rewrite Hr, Hok. }
  destruct (json_or_reject (current_request srv)) as [c|[e|s1]] eqn:H1;
    [| by destruct (Hce e) |];
    (destruct (json_or_reject (forecast_request srv)) as [f|[e|s2]] eqn:H2;
     [| by destruct (Hfe e) |]); simpl.
  - by destruct Hrej as [[s ?]|[s ?]].
  - done.
  - done.
  - by destruct firstFails.
Qed.

(** X23 when the forecast is refused with status 404 and the current
    price is served. *)
Lemma X23_witness_forecast_not_found :
  let srv :=
    {| current_request :=
         Return (Response true 200
                   (Return {| Buyer.lk_date := VStr "2024-03";
                              Buyer.price_sll := VNum 98 |}));
       forecast_request :=
         Return (Response false 404 (Throw (Error "no body"))) |} in
  let st :=
    {| commodity := "Rice"; buyDate := "2024-06-01"; current := None;
       forecast := None; history := []; loading := false; err := None |} in
  err (onSearch_api srv true st) = Some "[object Response]" /\
  current (onSearch_api srv true st) = None /\
  forecast (onSearch_api srv true st) = None /\
  loading (onSearch_api srv true st) = false.
Proof.
  apply X23_refused_search_shows_object_response; try discriminate.
  right. eexists. split; reflexivity.
Defined.

End ApiSearch.

Section UseApi.
Import ModelEval.
Context {D : Type}.

(** X24: useApi and a change of url.  When the url changes while a
    request is in flight, the effect aborts it and starts a new one with
    loading on; when the aborted request then settles, its AbortError is
    not reported and the data is left alone, but loading is switched
    off although the new request is still in flight.  The new request
    then sets the data when it succeeds and the error, next to the data
    of the previous url, when it fails. *)
Theorem X24_aborted_request_switches_loading_off (s : api_state D)
    (msg : string) (j : D) (e : JS.error) :
  let s1 := api_step (api_step s UrlChanged) UrlChanged in
  let old := S (runs s) in
  let new := S (S (runs s)) in
  let s2 := api_step s1 (RequestSettled old (Throw (mkError "AbortError" msg))) in
  name e <> "AbortError" ->
  api_loading s1 = true /\
  api_loading s2 = false /\
  new ∈ in_flight s2 /\
  data s2 = data s /\
  api_error s2 = None /\
  data (api_step s2 (RequestSettled new (Return j))) = Some j /\
  api_error (api_step s2 (RequestSettled new (Return j))) = None /\
  data (api_step s2 (RequestSettled new (Throw e))) = data s /\
  api_error (api_step s2 (RequestSettled new (Throw e))) = Some (display e).
Proof.
  intros s1 old new s2 He.
  assert (Hold : old ∈ in_flight s1).
  { unfold s1, old. simpl. apply elem_of_union. right.
    apply elem_of_union. left. by apply elem_of_singleton. }
  assert (Hs2 : s2 = {| data := data s; api_loading := false;
                        api_error := None; runs := S (S (runs s));
                        in_flight := in_flight s1 ∖ {[ old ]} |}).
  { unfold s2. unfold api_step at 1. by rewrite decide_True by done. }
  assert (Hnew : new ∈ in_flight s2).
  { rewrite Hs2. unfold s1, old, new. simpl.
    apply elem_of_difference. split.
    - apply elem_of_union. left. by apply elem_of_singleton.
    - rewrite elem_of_singleton. lia. }
  apply String.eqb_neq in He.
  split; [done|]. rewrite Hs2 in Hnew |- *.
  unfold api_step. rewrite !decide_True by done. simpl.
  by rewrite He.
Qed.

End UseApi.

(** X24 on the first two urls of a use of useApi. *)
Lemma X24_witness_two_urls :
  let s1 := ModelEval.api_step
              (ModelEval.api_step (ModelEval.api_initial (D := nat))
                 ModelEval.UrlChanged) ModelEval.UrlChanged in
  let s2 := ModelEval.api_step s1
              (ModelEval.RequestSettled 1
                 (Throw (mkError "AbortError" "The user aborted a request."))) in
  ModelEval.api_loading s1 = true /\
  ModelEval.api_loading s2 = false /\
  2%nat ∈ ModelEval.in_flight s2 /\
  ModelEval.data s2 = None /\
  ModelEval.api_error s2 = None /\
  ModelEval.data (ModelEval.api_step s2 (ModelEval.RequestSettled 2 (Return 7%nat)))
    = Some 7%nat /\
  ModelEval.api_error
    (ModelEval.api_step s2 (ModelEval.RequestSettled 2 (Return 7%nat))) = None /\
  ModelEval.data
    (ModelEval.api_step s2 (ModelEval.RequestSettled 2 (Throw (Error "HTTP 500"))))
    = None /\
  ModelEval.api_error
    (ModelEval.api_step s2 (ModelEval.RequestSettled 2 (Throw (Error "HTTP 500"))))
    = Some (display (Error "HTTP 500")).
Proof.
  apply (X24_aborted_request_switches_loading_off
           (ModelEval.api_initial (D := nat))
           "The user aborted a request." 7%nat (Error "HTTP 500")).
  discriminate.
Defined.
